(** * Token issuance of the Vortex Go SDK (client.go, [GenerateJWT])

    A shallow embedding of the method [GenerateJWT] of [Client] and of
    the library functions it calls, followed by the properties of the
    issued token. The library functions (strings, encoding/base64,
    crypto/sha256, crypto/hmac, encoding/json, google/uuid) are embedded
    from their Go sources and run on published test vectors below.

    The rest of client.go follows: the constructors, [apiRequest] and
    the seven calls of the API, over an interface [NetLib] for what
    net/url, net/http and [json.Unmarshal] do; and the helper [splitJWT]
    of client_test.go.

    Conventions of the embedding:
    - a Go [string] is a [string] (a sequence of 8-bit characters), a
      [[]byte] is a [list byte]; the conversion [[]byte(s)] is
      [String.list_byte_of_string];
    - a nilable slice, map or pointer is an [option], [None] being [nil];
    - an [int64] is a [Z] with the wrap-around of Go's arithmetic written
      out ([wrap64]);
    - a [map[string]interface{}] is a [gmap string value]; the order in
      which a [range] loop visits it is an explicit argument;
    - the Go pair [(string, error)] is kept as a pair, and a run-time
      panic is a separate outcome;
    - the receiver of a method is a pointer and may be [nil]:
      [Client_GenerateJWT] is the method on an [option Client]. *)

From Stdlib Require Import ZArith Lia ZifyNat Ascii.
From Stdlib Require DecimalString.
From Stdlib.Strings Require Import Byte.
From stdpp Require Import gmap strings list fin_maps sorting.

Local Open Scope string_scope.

(* ===================================================================== *)
(** * Bytes, characters and machine integers *)
(* ===================================================================== *)

Definition byte_to_Z (b : byte) : Z := Z.of_N (Byte.to_N b).

Definition Z_to_byte (z : Z) : byte :=
  match Byte.of_N (Z.to_N (z mod 256)) with
  | Some b => b
  | None => x00
  end.

Definition ascii_to_Z (c : ascii) : Z := Z.of_N (N_of_ascii c).

Definition Z_to_ascii (z : Z) : ascii := ascii_of_N (Z.to_N (z mod 256)).

(** Go's [int64]: the result of an arithmetic operation is reduced into
    [-2^63, 2^63). *)
Definition wrap64 (z : Z) : Z := (z + 2 ^ 63) mod 2 ^ 64 - 2 ^ 63.

Definition is_int64 (z : Z) : Prop := (- 2 ^ 63 <= z < 2 ^ 63)%Z.

(* ===================================================================== *)
(** * package strings *)
(* ===================================================================== *)

Module strings.

(** [split_at sep cur s]: the segments of [cur ++ s] cut at each
    occurrence of the byte [sep] in [s]; [cur] is the segment being
    read. *)
Fixpoint split_at (sep : ascii) (cur : string) (s : string) : list string :=
  match s with
  | EmptyString => [cur]
  | String c rest =>
      if Ascii.eqb c sep
      then cur :: split_at sep EmptyString rest
      else split_at sep (cur +:+ String c EmptyString) rest
  end.

(** [strings.Split(s, sep)] for a one-byte separator, the only use in
    client.go ([strings.Split(c.apiKey, ".")]): the substrings between
    separators, [Count(s, sep) + 1] of them. *)
Definition Split (s : string) (sep : ascii) : list string :=
  split_at sep EmptyString s.

End strings.

(* ===================================================================== *)
(** * package encoding/base64, [RawURLEncoding] *)
(* ===================================================================== *)

Module base64.
Local Open Scope Z_scope.

(** The URL-safe alphabet of RFC 4648 ([encodeURL]). *)
Definition encodeURL : string :=
  "ABCDEFGHIJKLMNOPQRSTUVWXYZabcdefghijklmnopqrstuvwxyz0123456789-_".

(** [enc.encode[i]] *)
Definition encode_char (i : Z) : ascii :=
  match String.get (Z.to_nat i) encodeURL with
  | Some c => c
  | None => "A"%char
  end.

(** [enc.decodeMap[c]], [None] standing for the entry [0xff]. *)
Definition decodeMap (c : ascii) : option Z :=
  let n := ascii_to_Z c in
  if (65 <=? n) && (n <=? 90) then Some (n - 65)
  else if (97 <=? n) && (n <=? 122) then Some (n - 71)
  else if (48 <=? n) && (n <=? 57) then Some (n + 4)
  else if n =? 45 then Some 62
  else if n =? 95 then Some 63
  else None.

Definition sextet (val : Z) (shift : Z) : ascii :=
  encode_char (Z.land (Z.shiftr val shift) 63).

(** [RawURLEncoding.EncodeToString]: three bytes give four characters;
    a remainder of one or two bytes gives two or three characters, and
    no padding is written. *)
Fixpoint EncodeToString (src : list byte) : string :=
  match src with
  | [] => EmptyString
  | [b0] =>
      let val := Z.shiftl (byte_to_Z b0) 16 in
      String (sextet val 18) (String (sextet val 12) EmptyString)
  | [b0; b1] =>
      let val := Z.lor (Z.shiftl (byte_to_Z b0) 16) (Z.shiftl (byte_to_Z b1) 8) in
      String (sextet val 18) (String (sextet val 12)
        (String (sextet val 6) EmptyString))
  | b0 :: b1 :: b2 :: rest =>
      let val := Z.lor (Z.lor (Z.shiftl (byte_to_Z b0) 16)
                              (Z.shiftl (byte_to_Z b1) 8)) (byte_to_Z b2) in
      String (sextet val 18) (String (sextet val 12)
        (String (sextet val 6) (String (sextet val 0) (EncodeToString rest))))
  end.

(** The bytes of one quantum ([decodeQuantum], after its loop): [dbuf]
    holds the [dlen] six-bit values read, and [dlen - 1] bytes are
    written. The encoding is not strict, so left-over bits are dropped
    without a check. *)
Definition quantum_bytes (dbuf : list Z) : list byte :=
  let d i := nth i dbuf 0 in
  let val := Z.lor (Z.lor (Z.lor (Z.shiftl (d 0%nat) 18) (Z.shiftl (d 1%nat) 12))
                          (Z.shiftl (d 2%nat) 6)) (d 3%nat) in
  take (length dbuf - 1)%nat
    [Z_to_byte (Z.shiftr val 16); Z_to_byte (Z.shiftr val 8); Z_to_byte val].

(** The decoding loop: [dbuf] is the quantum being read. A character of
    the alphabet is added to it; carriage return and line feed are
    skipped; anything else is corrupt input (there is no padding
    character). At the end of the input a quantum of one character is
    corrupt. *)
Fixpoint decode (src : string) (dbuf : list Z) : option (list byte) :=
  match src with
  | EmptyString =>
      match dbuf with
      | [] => Some []
      | [_] => None
      | _ => Some (quantum_bytes dbuf)
      end
  | String c rest =>
      match decodeMap c with
      | Some out =>
          let dbuf' := (dbuf ++ [out])%list in
          if (length dbuf' =? 4)%nat
          then app (quantum_bytes dbuf') <$> decode rest []
          else decode rest dbuf'
      | None =>
          if Ascii.eqb c "010"%char || Ascii.eqb c "013"%char
          then decode rest dbuf
          else None
      end
  end.

(** [RawURLEncoding.DecodeString]; [None] is a [CorruptInputError]. *)
Definition DecodeString (s : string) : option (list byte) := decode s [].

End base64.

(* ===================================================================== *)
(** * package github.com/google/uuid *)
(* ===================================================================== *)

Module uuid.
Local Open Scope Z_scope.

(** A [UUID] is a [[16]byte]. *)
Definition UUID : Type := list byte.

(** [uuid.FromBytes]: fails unless the slice has exactly 16 bytes; the
    error carries the length found. *)
Definition FromBytes (b : list byte) : UUID + nat :=
  if (length b =? 16)%nat then inl b else inr (length b).

Definition hex_digit (n : Z) : ascii :=
  match String.get (Z.to_nat n) "0123456789abcdef" with
  | Some c => c
  | None => "0"%char
  end.

(** [hex.Encode] *)
Fixpoint hex_encode (b : list byte) : string :=
  match b with
  | [] => EmptyString
  | x :: rest =>
      String (hex_digit (Z.shiftr (byte_to_Z x) 4))
        (String (hex_digit (Z.land (byte_to_Z x) 15)) (hex_encode rest))
  end.

(** [UUID.String]: the form xxxxxxxx-xxxx-xxxx-xxxx-xxxxxxxxxxxx. *)
Definition String_ (u : UUID) : string :=
  hex_encode (take 4 u) +:+ "-" +:+
  hex_encode (take 2 (drop 4 u)) +:+ "-" +:+
  hex_encode (take 2 (drop 6 u)) +:+ "-" +:+
  hex_encode (take 2 (drop 8 u)) +:+ "-" +:+
  hex_encode (take 6 (drop 10 u)).

End uuid.

(* ===================================================================== *)
(** * package crypto/sha256 *)
(* ===================================================================== *)

Module sha256.
Local Open Scope Z_scope.

(** The size of a digest and of a block, in bytes. *)
Definition Size : nat := 32.
Definition BlockSize : nat := 64.

(** Arithmetic on [uint32]. *)
Definition u32 (z : Z) : Z := z mod 2 ^ 32.
Definition add32 (x y : Z) : Z := u32 (x + y).

(** [bits.RotateLeft32(x, -n)] *)
Definition rotr (x n : Z) : Z :=
  Z.lor (Z.shiftr x n) (u32 (Z.shiftl x (32 - n))).

(** [^x] on a [uint32] *)
Definition not32 (x : Z) : Z := Z.lxor x (2 ^ 32 - 1).

(** The round constants [_K], written in decimal. *)
Definition _K : list Z :=
  [ 1116352408; 1899447441; 3049323471; 3921009573; 961987163;
    1508970993; 2453635748; 2870763221; 3624381080; 310598401;
    607225278; 1426881987; 1925078388; 2162078206; 2614888103;
    3248222580; 3835390401; 4022224774; 264347078; 604807628;
    770255983; 1249150122; 1555081692; 1996064986; 2554220882;
    2821834349; 2952996808; 3210313671; 3336571891; 3584528711;
    113926993; 338241895; 666307205; 773529912; 1294757372;
    1396182291; 1695183700; 1986661051; 2177026350; 2456956037;
    2730485921; 2820302411; 3259730800; 3345764771; 3516065817;
    3600352804; 4094571909; 275423344; 430227734; 506948616;
    659060556; 883997877; 958139571; 1322822218; 1537002063;
    1747873779; 1955562222; 2024104815; 2227730452; 2361852424;
    2428436474; 2756734187; 3204031479; 3329325298 ].

(** The eight words [h[0..7]] of a digest in progress. *)
Definition state : Type := (Z * Z * Z * Z * Z * Z * Z * Z)%type.

(** [init0 .. init7] *)
Definition init : state :=
  (1779033703, 3144134277, 1013904242, 2773480762,
   1359893119, 2600822924, 528734635, 1541459225).

(** The big-endian [uint32] at the head of [p]. *)
Definition be32 (p : list byte) : Z :=
  let b i := byte_to_Z (nth i p x00) in
  Z.lor (Z.lor (Z.lor (Z.shiftl (b 0%nat) 24) (Z.shiftl (b 1%nat) 16))
               (Z.shiftl (b 2%nat) 8)) (b 3%nat).

(** [w[0..15]]: the sixteen words of a block. *)
Definition block_words (p : list byte) : list Z :=
  map (fun i => be32 (drop (4 * i) p)) (seq 0 16).

(** [w[i]] for [i = length w], from the words before it. *)
Definition next_word (w : list Z) : Z :=
  let i := length w in
  let v1 := nth (i - 2) w 0 in
  let t1 := Z.lxor (Z.lxor (rotr v1 17) (rotr v1 19)) (Z.shiftr v1 10) in
  let v2 := nth (i - 15) w 0 in
  let t2 := Z.lxor (Z.lxor (rotr v2 7) (rotr v2 18)) (Z.shiftr v2 3) in
  add32 (add32 (add32 t1 (nth (i - 7) w 0)) t2) (nth (i - 16) w 0).

Fixpoint extend (n : nat) (w : list Z) : list Z :=
  match n with
  | O => w
  | S n' => extend n' (w ++ [next_word w])%list
  end.

(** One round of the compression loop, with [_K[i]] and [w[i]]. *)
Definition round (s : state) (kw : Z * Z) : state :=
  let '(a, b, c, d, e, f, g, h) := s in
  let t1 :=
    add32 (add32 (add32 (add32 h
      (Z.lxor (Z.lxor (rotr e 6) (rotr e 11)) (rotr e 25)))
      (Z.lxor (Z.land e f) (Z.land (not32 e) g))) (fst kw)) (snd kw) in
  let t2 :=
    add32 (Z.lxor (Z.lxor (rotr a 2) (rotr a 13)) (rotr a 22))
          (Z.lxor (Z.lxor (Z.land a b) (Z.land a c)) (Z.land b c)) in
  (add32 t1 t2, a, b, c, add32 d t1, e, f, g).

(** [blockGeneric] on one 64-byte block. *)
Definition block (s : state) (p : list byte) : state :=
  let w := extend 48 (block_words p) in
  let '(h0, h1, h2, h3, h4, h5, h6, h7) := s in
  let '(a, b, c, d, e, f, g, h) := fold_left round (combine _K w) s in
  (add32 h0 a, add32 h1 b, add32 h2 c, add32 h3 d,
   add32 h4 e, add32 h5 f, add32 h6 g, add32 h7 h).

(** [blockGeneric] on the first [n] blocks of [p]. *)
Fixpoint blocks (n : nat) (s : state) (p : list byte) : state :=
  match n with
  | O => s
  | S n' => blocks n' (block s (take 64 p)) (drop 64 p)
  end.

(** [binary.BigEndian.PutUint32] and [PutUint64] *)
Definition put32 (x : Z) : list byte :=
  [Z_to_byte (Z.shiftr x 24); Z_to_byte (Z.shiftr x 16);
   Z_to_byte (Z.shiftr x 8); Z_to_byte x].

Definition put64 (x : Z) : list byte :=
  (put32 (Z.shiftr x 32) ++ put32 x)%list.

(** The padding of [checkSum]: the byte [0x80], zeros up to 56 modulo
    64, and the length of the message in bits on eight bytes. *)
Definition padding (len : nat) : list byte :=
  (x80 :: replicate (Z.to_nat ((55 - Z.of_nat len) mod 64)) x00
     ++ put64 (Z.shiftl (Z.of_nat len) 3 mod 2 ^ 64))%list.

(** [sha256.Sum256], and [New], [Write], [Sum(nil)] in sequence. *)
Definition Sum256 (data : list byte) : list byte :=
  let p := (data ++ padding (length data))%list in
  let '(h0, h1, h2, h3, h4, h5, h6, h7) := blocks (length p / 64) init p in
  (put32 h0 ++ put32 h1 ++ put32 h2 ++ put32 h3 ++
   put32 h4 ++ put32 h5 ++ put32 h6 ++ put32 h7)%list.

End sha256.

(* ===================================================================== *)
(** * package crypto/hmac *)
(* ===================================================================== *)

Module hmac.
Local Open Scope Z_scope.

Definition xor_byte (c : Z) (b : byte) : byte :=
  Z_to_byte (Z.lxor (byte_to_Z b) c).

(** The key as [hmac.New] keeps it: hashed when longer than a block,
    then copied into a block of zeros. *)
Definition block_key (key : list byte) : list byte :=
  let key' := if (sha256.BlockSize <? length key)%nat
              then sha256.Sum256 key else key in
  (key' ++ replicate (sha256.BlockSize - length key') x00)%list.

(** [h := hmac.New(sha256.New, key); h.Write(msg); h.Sum(nil)] *)
Definition Sum (key msg : list byte) : list byte :=
  let k := block_key key in
  let ipad := map (xor_byte 54) k in
  let opad := map (xor_byte 92) k in
  sha256.Sum256 (opad ++ sha256.Sum256 (ipad ++ msg))%list.

End hmac.

(* ===================================================================== *)
(** * package encoding/json *)
(* ===================================================================== *)

Module json.
Local Open Scope Z_scope.

(** The Go values that reach [json.Marshal] in this program, behind
    [interface{}]. A slice or a map may be [nil] ([None]). A struct is
    the list of its exported fields under their [json] tag, in the
    order of declaration. [VUnsupported] stands for a value of a type
    that [json.Marshal] rejects with an [UnsupportedTypeError] (a
    channel, a function, a complex number). Floating-point values are
    left out. *)
#[warnings="-register-all"]
Inductive value : Type :=
  | VNil
  | VBool (b : bool)
  | VInt64 (n : Z)
  | VString (s : string)
  | VStringSlice (l : option (list string))
  | VSlice (l : option (list value))
  | VMap (m : option (gmap string value))
  | VStruct (fields : list (string * value))
  | VUnsupported.

Definition quote : ascii := "034"%char.
Definition backslash : ascii := "092"%char.

(** [strconv.AppendInt(b, n, 10)] *)
Definition FormatInt (n : Z) : string :=
  DecimalString.NilEmpty.string_of_int (Z.to_int n).

Definition hex (n : Z) : ascii :=
  match String.get (Z.to_nat n) "0123456789abcdef" with
  | Some c => c
  | None => "0"%char
  end.

(** [htmlSafeSet[b]] for [b < utf8.RuneSelf]: every character from the
    space on, except the quote, the backslash and the three that HTML
    escaping rewrites. *)
Definition htmlSafeSet (b : Z) : bool :=
  (32 <=? b) && negb (b =? 34) && negb (b =? 38) && negb (b =? 60)
  && negb (b =? 62) && negb (b =? 92).

(** The escape written for a byte [b < utf8.RuneSelf] outside
    [htmlSafeSet] (the [switch] of [appendString]). *)
Definition escape_byte (b : Z) : string :=
  if (b =? 92) || (b =? 34) then String backslash (String (Z_to_ascii b) "")
  else if b =? 8 then "\b"
  else if b =? 12 then "\f"
  else if b =? 10 then "\n"
  else if b =? 13 then "\r"
  else if b =? 9 then "\t"
  else "\u00" +:+ String (hex (Z.shiftr b 4)) (String (hex (Z.land b 15)) "").

Definition cont (c : ascii) : bool :=
  let n := ascii_to_Z c in (128 <=? n) && (n <=? 191).

(** [utf8.DecodeRuneInString] accepts a two-byte sequence ... *)
Definition rune2 (b : Z) (c1 : ascii) : bool :=
  (194 <=? b) && (b <=? 223) && cont c1.

(** ... a three-byte sequence: no overlong form and no surrogate ... *)
Definition rune3 (b : Z) (c1 c2 : ascii) : bool :=
  let n1 := ascii_to_Z c1 in
  (224 <=? b) && (b <=? 239) && cont c2 &&
  (if b =? 224 then (160 <=? n1) && (n1 <=? 191)
   else if b =? 237 then (128 <=? n1) && (n1 <=? 159)
   else cont c1).

(** ... a four-byte sequence: up to U+10FFFF. *)
Definition rune4 (b : Z) (c1 c2 c3 : ascii) : bool :=
  let n1 := ascii_to_Z c1 in
  (240 <=? b) && (b <=? 244) && cont c2 && cont c3 &&
  (if b =? 240 then (144 <=? n1) && (n1 <=? 191)
   else if b =? 244 then (128 <=? n1) && (n1 <=? 143)
   else cont c1).

(** U+2028 and U+2029 are the bytes E2 80 A8 and E2 80 A9. *)
Definition line_sep (b : Z) (c1 c2 : ascii) : bool :=
  (b =? 226) && (ascii_to_Z c1 =? 128)
  && ((ascii_to_Z c2 =? 168) || (ascii_to_Z c2 =? 169)).

(** The body of [appendString] with [escapeHTML] set, without the
    surrounding quotes (Go 1.22 and later, where backspace and form
    feed have a short escape). A byte that does not start a valid
    UTF-8 sequence is replaced by the escape of U+FFFD. *)
Fixpoint escape (s : string) : string :=
  match s with
  | EmptyString => EmptyString
  | String c rest =>
      let b := ascii_to_Z c in
      if b <? 128 then
        if htmlSafeSet b then String c (escape rest)
        else escape_byte b +:+ escape rest
      else
        match rest with
        | EmptyString => "\ufffd" +:+ escape rest
        | String c1 rest1 =>
            if rune2 b c1 then String c (String c1 (escape rest1))
            else
              match rest1 with
              | EmptyString => "\ufffd" +:+ escape rest
              | String c2 rest2 =>
                  if rune3 b c1 c2 then
                    if line_sep b c1 c2
                    then "\u202" +:+ String (hex (Z.land (ascii_to_Z c2) 15))
                                       (escape rest2)
                    else String c (String c1 (String c2 (escape rest2)))
                  else
                    match rest2 with
                    | EmptyString => "\ufffd" +:+ escape rest
                    | String c3 rest3 =>
                        if rune4 b c1 c2 c3
                        then String c (String c1 (String c2 (String c3
                               (escape rest3))))
                        else "\ufffd" +:+ escape rest
                    end
              end
        end
  end.

(** [appendString] *)
Definition appendString (s : string) : string :=
  String quote (escape s +:+ String quote "").

(** [strings.Join(elems, ",")] *)
Definition join (elems : list string) : string := String.concat "," elems.

(** The order of [strings.Compare] on the keys of a map. *)
Definition key_le {A} (x y : string * A) : Prop :=
  Is_true (String.leb (fst x) (fst y)).

#[global] Instance key_le_dec {A} (x y : string * A) : Decision (key_le x y).
Proof. unfold key_le. apply _. Defined.

(** A rendered member: name, colon, value. *)
Definition member (kv : string * string) : string :=
  appendString (fst kv) +:+ ":" +:+ snd kv.

(** The encoder: [None] is an error. The members of a map are written
    in the order of their keys, the fields of a struct in the order
    of the declaration. *)
Fixpoint encode (v : value) : option string :=
  match v with
  | VNil => Some "null"
  | VBool b => Some (if b then "true" else "false")
  | VInt64 n => Some (FormatInt n)
  | VString s => Some (appendString s)
  | VStringSlice None => Some "null"
  | VStringSlice (Some l) => Some ("[" +:+ join (map appendString l) +:+ "]")
  | VSlice None => Some "null"
  | VSlice (Some l) =>
      elems ← mapM encode l;
      Some ("[" +:+ join elems +:+ "]")
  | VMap None => Some "null"
  | VMap (Some m) =>
      let sv := merge_sort key_le (map_to_list (encode <$> m)) in
      members ← mapM (fun kv => pair (fst kv) <$> snd kv) sv;
      Some ("{" +:+ join (map member members) +:+ "}")
  | VStruct fields =>
      members ← mapM (fun kv => pair (fst kv) <$> encode (snd kv)) fields;
      Some ("{" +:+ join (map member members) +:+ "}")
  | VUnsupported => None
  end.

(** [json.Marshal] *)
Definition Marshal (v : value) : option (list byte) :=
  String.list_byte_of_string <$> encode v.

End json.

(* ===================================================================== *)
(** * package vortex: types.go and client.go *)
(* ===================================================================== *)

Module vortex.
Import json.
Local Open Scope Z_scope.

(** [type Client struct], without its HTTP client. *)
Record Client : Type := { apiKey : string; baseURL : string }.

(** [type User struct]; [AdminScopes] is a slice and may be [nil]. *)
Record User : Type :=
  { ID : string; Email : string; AdminScopes : option (list string) }.

(** [type JWTHeader struct] *)
Record JWTHeader : Type :=
  { IAT : Z; Alg : string; Typ : string; Kid : string }.

(** The header as [json.Marshal] sees it: the fields under their tags. *)
Definition JWTHeader_value (h : JWTHeader) : value :=
  VStruct [("iat", VInt64 (IAT h)); ("alg", VString (Alg h));
           ("typ", VString (Typ h)); ("kid", VString (Kid h))].

(** The errors built with [fmt.Errorf] in [GenerateJWT], one per
    message: "invalid API key format", "invalid API key prefix",
    "failed to decode API key ID: %w", "failed to parse UUID from API
    key: %w" (the wrapped error gives the number of bytes found),
    "failed to marshal JWT header: %w", "failed to marshal JWT
    payload: %w". *)
Inductive error : Type :=
  | ErrInvalidAPIKeyFormat
  | ErrInvalidAPIKeyPrefix
  | ErrDecodeAPIKeyID
  | ErrParseUUID (got : nat)
  | ErrMarshalHeader
  | ErrMarshalPayload.

(** What a call does: it returns the pair [(string, error)], the error
    being [nil] ([None]) on success, or it panics. *)
Inductive outcome : Type :=
  | Return (jwt : string) (err : option error)
  | Panic.

(** [[]byte(s)] *)
Definition bytes (s : string) : list byte := String.list_byte_of_string s.

(** Lines 86 to 109: the API key is split and checked; the result is
    the tenant identifier and the key (the third segment). *)
Definition parseAPIKey (apiKey : string) : uuid.UUID * string + error :=
  let parts := strings.Split apiKey "."%char in
  if negb (length parts =? 3)%nat then inr ErrInvalidAPIKeyFormat else
  let prefix := nth 0 parts "" in
  let encodedID := nth 1 parts "" in
  let key := nth 2 parts "" in
  if negb (String.eqb prefix "VRTX") then inr ErrInvalidAPIKeyPrefix else
  match base64.DecodeString encodedID with
  | None => inr ErrDecodeAPIKeyID
  | Some uuidBytes =>
      match uuid.FromBytes uuidBytes with
      | inr got => inr (ErrParseUUID got)
      | inl id => inl (id, key)
      end
  end.

(** Lines 112 to 114 (step 1): the signing key. *)
Definition deriveSigningKey (key : string) (id : uuid.UUID) : list byte :=
  hmac.Sum (bytes key) (bytes (uuid.String_ id)).

(** Lines 120 to 125: the header. *)
Definition buildHeader (now : Z) (id : uuid.UUID) : JWTHeader :=
  {| IAT := now; Alg := "HS256"; Typ := "JWT"; Kid := uuid.String_ id |}.

(** [payload[key] = value] *)
Definition assign (payload : gmap string value) (kv : string * value)
  : gmap string value :=
  <[fst kv := snd kv]> payload.

(** Lines 128 to 144: the payload. [order] is the sequence of entries
    that [range extra] yields; it is read only when [extra] is not
    [nil]. *)
Definition buildPayload (now : Z) (order : list (string * value))
    (user : User) (extra : option (gmap string value))
  : gmap string value :=
  let expires := wrap64 (now + 3600) in
  let payload : gmap string value :=
    <["expires" := VInt64 expires]>
      (<["userEmail" := VString (Email user)]>
        (<["userId" := VString (ID user)]> ∅)) in
  let payload :=
    match AdminScopes user with
    | Some scopes => <["adminScopes" := VStringSlice (Some scopes)]> payload
    | None => payload
    end in
  match extra with
  | Some _ => fold_left assign order payload
  | None => payload
  end.

(** Lines 157 to 167 (steps 3 and 4): encoding and signature. *)
Definition signToken (signingKey headerJSON payloadJSON : list byte) : string :=
  let headerB64 := base64.EncodeToString headerJSON in
  let payloadB64 := base64.EncodeToString payloadJSON in
  let toSign := headerB64 +:+ "." +:+ payloadB64 in
  let signature := base64.EncodeToString (hmac.Sum signingKey (bytes toSign)) in
  toSign +:+ "." +:+ signature.

(** [func (c *Client) GenerateJWT(user *User, extra
    map[string]interface{}) (string, error)], on the client [c] that
    [NewClient] has built. [now] is the value of [time.Now().Unix()]
    and [order] the sequence of entries that [range extra] yields in
    this call. Reading [user.ID] panics when [user] is [nil]. *)
Definition GenerateJWT (now : Z) (order : list (string * value))
    (c : Client) (user : option User) (extra : option (gmap string value))
  : outcome :=
  match parseAPIKey (apiKey c) with
  | inr err => Return "" (Some err)
  | inl (id, key) =>
      let signingKey := deriveSigningKey key id in
      let header := buildHeader now id in
      match user with
      | None => Panic
      | Some u =>
          let payload := buildPayload now order u extra in
          match Marshal (JWTHeader_value header) with
          | None => Return "" (Some ErrMarshalHeader)
          | Some headerJSON =>
              match Marshal (VMap (Some payload)) with
              | None => Return "" (Some ErrMarshalPayload)
              | Some payloadJSON =>
                  Return (signToken signingKey headerJSON payloadJSON) None
              end
          end
      end
  end.

(** The method on its receiver, a pointer to a [Client] that may be
    [nil]: line 86 reads [c.apiKey] before anything else, which panics
    when [c] is [nil], whatever the other arguments are. *)
Definition Client_GenerateJWT (now : Z) (order : list (string * value))
    (c : option Client) (user : option User)
    (extra : option (gmap string value)) : outcome :=
  match c with
  | None => Panic
  | Some c => GenerateJWT now order c user extra
  end.

(** The orders in which [range m] may visit a map: the entries of [m],
    each once, in any order. Nothing is visited in a [nil] map. *)
Definition range_order (m : option (gmap string value))
    (order : list (string * value)) : Prop :=
  match m with
  | Some m => order ≡ₚ map_to_list m
  | None => True
  end.

(** The error classes of the specification, and the class of each
    error of [GenerateJWT]. *)
Inductive error_class : Type :=
  | MalformedCredential
  | UnrecognizedPrefix
  | InvalidIdentifierEncoding
  | SerializationError.

Definition classify (e : error) : error_class :=
  match e with
  | ErrInvalidAPIKeyFormat => MalformedCredential
  | ErrInvalidAPIKeyPrefix => UnrecognizedPrefix
  | ErrDecodeAPIKeyID => InvalidIdentifierEncoding
  | ErrParseUUID _ => InvalidIdentifierEncoding
  | ErrMarshalHeader => SerializationError
  | ErrMarshalPayload => SerializationError
  end.

(** The class of the error of an outcome, if it has one. *)
Definition failure (o : outcome) : option error_class :=
  match o with
  | Return _ (Some e) => Some (classify e)
  | Return _ None => None
  | Panic => None
  end.

End vortex.

(* ===================================================================== *)
(** * Unpadded base64url, as a property of the text *)
(* ===================================================================== *)

(** A description of the input that [RawURLEncoding] accepts, which
    does not run the decoder: the number of alphabet characters of [s],
    when [s] has nothing but alphabet characters, carriage returns and
    line feeds. *)
Definition in_alphabet (c : ascii) : bool :=
  existsb (Ascii.eqb c) (String.list_ascii_of_string base64.encodeURL).

Definition is_newline (c : ascii) : bool :=
  Ascii.eqb c "010"%char || Ascii.eqb c "013"%char.

Fixpoint alphabet_length (s : string) : option nat :=
  match s with
  | EmptyString => Some 0%nat
  | String c rest =>
      if in_alphabet c then S <$> alphabet_length rest
      else if is_newline c then alphabet_length rest
      else None
  end.


(* ===================================================================== *)
(** * Test data (client_test.go) *)
(* ===================================================================== *)

Import vortex json.

Definition test_client : Client :=
  {| apiKey := "VRTX.EjRWeBI0EjQSNBI0VniQEg.test-key"; baseURL := "" |}.


Definition test_user : User :=
  {| ID := "user-123"; Email := "test@example.com";
     AdminScopes := Some ["autoJoin"] |}.

Definition test_extra : gmap string value :=
  <["role" := VString "admin"]> (<["department" := VString "Engineering"]> ∅).

Definition hex_of (b : list byte) : string := uuid.hex_encode b.

(* ===================================================================== *)
(** * Definitions used in the statements *)
(* ===================================================================== *)

(** Every character of [s] satisfies [p]. *)
Fixpoint all_chars (p : ascii → bool) (s : string) : bool :=
  match s with
  | EmptyString => true
  | String c rest => p c && all_chars p rest
  end.



(** A character other than the separator. *)
Definition not_sep (sep c : ascii) : bool := negb (Ascii.eqb c sep).

(** A character that [appendString] copies. *)
Definition safe_char (c : ascii) : bool :=
  (ascii_to_Z c <? 128)%Z && htmlSafeSet (ascii_to_Z c).

(** [s] between quotes. *)
Definition quoted (s : string) : string := String quote (s +:+ String quote "").

(** The text of a header with these fields. *)
Definition header_text (iat : Z) (kid : string) : string :=
  "{" +:+ quoted "iat" +:+ ":" +:+ FormatInt iat +:+ "," +:+
  quoted "alg" +:+ ":" +:+ quoted "HS256" +:+ "," +:+
  quoted "typ" +:+ ":" +:+ quoted "JWT" +:+ "," +:+
  quoted "kid" +:+ ":" +:+ quoted kid +:+ "}".

(** The six-bit values of [val], from the top, in the integers. *)
Definition sextets (val : Z) : list Z :=
  [Z.shiftr val 18 mod 64; Z.shiftr val 12 mod 64;
   Z.shiftr val 6 mod 64; Z.shiftr val 0 mod 64]%Z.

(** The value of a hexadecimal digit (lower case). *)
Definition hex_value (c : ascii) : Z :=
  let n := ascii_to_Z c in
  (if (n <? 58) then n - 48 else n - 87)%Z.

(** The bytes written in hexadecimal in [s]. *)
Fixpoint bytes_of_hex (s : string) : list byte :=
  match s with
  | String hi (String lo rest) =>
      Z_to_byte (16 * hex_value hi + hex_value lo) :: bytes_of_hex rest
  | _ => []
  end.

(** The payload of [TestGenerateJWT] at the clock 1700000000. *)
Definition test_payloadJSON : list byte :=
  bytes ("{" +:+ quoted "adminScopes" +:+ ":[" +:+ quoted "autoJoin" +:+ "],"
         +:+ quoted "expires" +:+ ":1700003600,"
         +:+ quoted "userEmail" +:+ ":" +:+ quoted "test@example.com" +:+ ","
         +:+ quoted "userId" +:+ ":" +:+ quoted "user-123" +:+ "}").

(** The token of [TestGenerateJWT] at the clock 1700000000. *)
Definition test_token : string :=
  "eyJpYXQiOjE3MDAwMDAwMDAsImFsZyI6IkhTMjU2IiwidHlwIjoiSldUIiwia2lkIjoiMTIzNDU2NzgtMTIzNC0xMjM0LTEyMzQtMTIzNDU2Nzg5MDEyIn0"
  +:+ ".eyJhZG1pblNjb3BlcyI6WyJhdXRvSm9pbiJdLCJleHBpcmVzIjoxNzAwMDAzNjAwLCJ1c2VyRW1haWwiOiJ0ZXN0QGV4YW1wbGUuY29tIiwidXNlcklkIjoidXNlci0xMjMifQ"
  +:+ ".oL92zQFEW2Jtvyfvduo9tGvvYSwktJeBI6uTHW_w2xU".

(** A user whose list of admin scopes is empty and not nil. *)
Definition user_empty_scopes : User :=
  {| ID := "user-123"; Email := "test@example.com"; AdminScopes := Some [] |}.

(** A user without a list of admin scopes. *)
Definition user_nil_scopes : User :=
  {| ID := "user-123"; Email := "test@example.com"; AdminScopes := None |}.

(** The identifier of the test key. *)
Definition test_id : uuid.UUID :=
  bytes_of_hex "12345678123412341234123456789012".

(** An extra map that sets a reserved key. *)
Definition override_extra : gmap string value :=
  <["expires" := VInt64 0]> (<["role" := VString "admin"]> ∅).

(** Linear arithmetic with division and remainder by constants. *)
Ltac div_lia := zify; Z.to_euclidean_division_equations; lia.

(* ===================================================================== *)
(** * package unicode/utf8, and [range] over a string *)
(* ===================================================================== *)

Module utf8.
Local Open Scope Z_scope.

(** [utf8.RuneError], U+FFFD. *)
Definition RuneError : Z := 65533.

(** The low six bits of a continuation byte. *)
Definition low6 (c : ascii) : Z := Z.land (ascii_to_Z c) 63.

(** The characters that [for _, char := range s] yields: a byte below
    [utf8.RuneSelf] is its own character; a valid sequence of two, three
    or four bytes is decoded; any other byte yields [RuneError] and the
    loop moves on by one byte. *)
Fixpoint runes (s : string) : list Z :=
  match s with
  | EmptyString => []
  | String c rest =>
      let b := ascii_to_Z c in
      if b <? 128 then b :: runes rest
      else
        match rest with
        | EmptyString => RuneError :: runes rest
        | String c1 rest1 =>
            if json.rune2 b c1
            then Z.lor (Z.shiftl (Z.land b 31) 6) (low6 c1) :: runes rest1
            else
              match rest1 with
              | EmptyString => RuneError :: runes rest
              | String c2 rest2 =>
                  if json.rune3 b c1 c2
                  then Z.lor (Z.lor (Z.shiftl (Z.land b 15) 12)
                                    (Z.shiftl (low6 c1) 6)) (low6 c2)
                       :: runes rest2
                  else
                    match rest2 with
                    | EmptyString => RuneError :: runes rest
                    | String c3 rest3 =>
                        if json.rune4 b c1 c2 c3
                        then Z.lor (Z.lor (Z.lor (Z.shiftl (Z.land b 7) 18)
                                                 (Z.shiftl (low6 c1) 12))
                                          (Z.shiftl (low6 c2) 6)) (low6 c3)
                             :: runes rest3
                        else RuneError :: runes rest
                    end
              end
        end
  end.

(** A continuation byte with the six bits of [r] from bit [shift] on. *)
Definition cont_byte (r shift : Z) : ascii :=
  Z_to_ascii (Z.lor 128 (Z.land (Z.shiftr r shift) 63)).

(** [string(r)] for a character [r] ([utf8.AppendRune]): one to four
    bytes; a surrogate or a value out of range gives the bytes of
    [RuneError]. *)
Definition encode_rune (r : Z) : string :=
  if (0 <=? r) && (r <? 128) then String (Z_to_ascii r) ""
  else if (0 <=? r) && (r <? 2048) then
    String (Z_to_ascii (Z.lor 192 (Z.shiftr r 6))) (String (cont_byte r 0) "")
  else if (r <? 0) || (1114111 <? r) || ((55296 <=? r) && (r <=? 57343)) then
    String "239" (String "191" (String "189" ""))
  else if r <? 65536 then
    String (Z_to_ascii (Z.lor 224 (Z.shiftr r 12)))
      (String (cont_byte r 6) (String (cont_byte r 0) ""))
  else
    String (Z_to_ascii (Z.lor 240 (Z.shiftr r 18)))
      (String (cont_byte r 12)
         (String (cont_byte r 6) (String (cont_byte r 0) ""))).

End utf8.

(* ===================================================================== *)
(** * client_test.go: the helper [splitJWT] *)
(* ===================================================================== *)

(** One turn of the loop of [splitJWT], on [parts] and [current]. *)
Definition splitJWT_step (st : list string * string) (char : Z)
  : list string * string :=
  if (char =? 46)%Z
  then ((fst st ++ [snd st])%list, "")
  else (fst st, snd st +:+ utf8.encode_rune char).

(** [func splitJWT(jwt string) []string]: the text between the dots; what
    follows the last dot is left out when it is empty. *)
Definition splitJWT (jwt : string) : list string :=
  let '(parts, current) := fold_left splitJWT_step (utf8.runes jwt) ([], "") in
  if negb (String.eqb current "") then (parts ++ [current])%list else parts.

(** A byte below [utf8.RuneSelf]. *)
Definition ascii_char (c : ascii) : bool := (ascii_to_Z c <? 128)%Z.

(** [l] without its last element when that is the empty string. *)
Fixpoint trim_last (l : list string) : list string :=
  match l with
  | [] => []
  | [x] => if String.eqb x "" then [] else [x]
  | x :: l' => x :: trim_last l'
  end.

(** [s] without its last character when that is a dot. *)
Fixpoint strip_dot (s : string) : string :=
  match s with
  | EmptyString => EmptyString
  | String c EmptyString => if Ascii.eqb c "."%char then EmptyString else s
  | String c rest => String c (strip_dot rest)
  end.

(* ===================================================================== *)
(** * package net/url: query strings *)
(* ===================================================================== *)

Module url.
Local Open Scope Z_scope.

(** [shouldEscape(c, encodeQueryComponent)]: everything but letters,
    digits and the four marks [-], [_], [.], [~]. *)
Definition shouldEscape (c : ascii) : bool :=
  let n := ascii_to_Z c in
  negb (((97 <=? n) && (n <=? 122)) || ((65 <=? n) && (n <=? 90))
        || ((48 <=? n) && (n <=? 57))
        || (n =? 45) || (n =? 95) || (n =? 46) || (n =? 126)).

Definition upperhex (n : Z) : ascii :=
  match String.get (Z.to_nat n) "0123456789ABCDEF" with
  | Some c => c
  | None => "0"%char
  end.

(** [url.QueryEscape]: a space becomes [+], any other escaped byte
    becomes [%] and two hexadecimal digits. *)
Fixpoint QueryEscape (s : string) : string :=
  match s with
  | EmptyString => EmptyString
  | String c rest =>
      if Ascii.eqb c " "%char then String "+" (QueryEscape rest)
      else if shouldEscape c then
        String "%" (String (upperhex (Z.shiftr (ascii_to_Z c) 4))
          (String (upperhex (Z.land (ascii_to_Z c) 15)) (QueryEscape rest)))
      else String c (QueryEscape rest)
  end.

(** [url.Values], a [map[string][]string]. *)
Definition Values : Type := gmap string (list string).

(** [v.Add(key, value)]: the value is appended to those of the key. *)
Definition Add (v : Values) (key value : string) : Values :=
  <[key := (default [] (v !! key) ++ [value])%list]> v.

(** The pairs [key=value] of one key, escaped. *)
Definition pairs (kv : string * list string) : list string :=
  map (λ value, QueryEscape (fst kv) +:+ "=" +:+ QueryEscape value) (snd kv).

(** [v.Encode()]: the pairs of all keys, in the order of the keys, joined
    by [&]. *)
Definition Encode (v : Values) : string :=
  String.concat "&" (flat_map pairs (merge_sort json.key_le (map_to_list v))).

(** A [url.URL]: the field [RawQuery], which client.go assigns, and the
    other fields together. *)
Record URL (parts : Type) : Type := { url_parts : parts; RawQuery : string }.

End url.

Arguments url.url_parts {parts} _.
Arguments url.RawQuery {parts} _.

(* ===================================================================== *)
(** * package net/textproto and net/http *)
(* ===================================================================== *)

Module http.
Local Open Scope Z_scope.

(** [validHeaderFieldByte], and [httpguts.IsTokenRune]: the characters
    of a token of RFC 7230. *)
Definition tokenByte (c : ascii) : bool :=
  let n := ascii_to_Z c in
  ((97 <=? n) && (n <=? 122)) || ((65 <=? n) && (n <=? 90))
  || ((48 <=? n) && (n <=? 57))
  || existsb (Ascii.eqb c) (String.list_ascii_of_string "!#$%&'*+-.^_`|~").

Definition is_lower (c : ascii) : bool :=
  (97 <=? ascii_to_Z c) && (ascii_to_Z c <=? 122).

Definition is_upper (c : ascii) : bool :=
  (65 <=? ascii_to_Z c) && (ascii_to_Z c <=? 90).

(** The second loop of [canonicalMIMEHeaderKey]: upper case for the
    first letter and for a letter after a dash, lower case elsewhere. *)
Fixpoint canonical (upper : bool) (s : string) : string :=
  match s with
  | EmptyString => EmptyString
  | String c rest =>
      let c' := if upper && is_lower c then Z_to_ascii (ascii_to_Z c - 32)
                else if negb upper && is_upper c
                     then Z_to_ascii (ascii_to_Z c + 32)
                     else c in
      String c' (canonical (Ascii.eqb c' "-"%char) rest)
  end.

(** [textproto.CanonicalMIMEHeaderKey]: a key with a byte that is not of
    a token is returned as it is. *)
Definition CanonicalMIMEHeaderKey (s : string) : string :=
  if all_chars tokenByte s then canonical true s else s.

(** [http.Header], a [map[string][]string], with [Set] and [Get]. *)
Definition Header : Type := gmap string (list string).

Definition Header_Set (h : Header) (key value : string) : Header :=
  <[CanonicalMIMEHeaderKey key := [value]]> h.

Definition Header_Get (h : Header) (key : string) : string :=
  match h !! CanonicalMIMEHeaderKey key with
  | Some (v :: _) => v
  | _ => ""
  end.

(** [http.Request]: the fields that client.go sets or passes. [ReqBody]
    is the content of the reader given to [http.NewRequest], [None]
    without a reader. *)
Record Request (U : Type) : Type :=
  { Method : string; ReqURL : U; ReqBody : option (list byte);
    ReqHeader : Header }.

(** [http.Response]: the fields that client.go reads. [RespBody] is
    what [io.ReadAll(resp.Body)] gives, [None] for an error. *)
Record Response : Type :=
  { StatusCode : Z; Status : string; RespBody : option (list byte) }.

(** [validMethod] *)
Definition validMethod (method : string) : bool :=
  negb (String.eqb method "") && all_chars tokenByte method.

End http.

Arguments http.Method {U} _.
Arguments http.ReqURL {U} _.
Arguments http.ReqBody {U} _.
Arguments http.ReqHeader {U} _.
Arguments http.Build_Request {U} _ _ _ _.

(** [type InvitationsResponse struct] of types.go, over the type of an
    invitation; the slice may be [nil]. *)
Record InvitationsResponse (R : Type) : Type :=
  { Invitations : option (list R) }.

Arguments Invitations {R} _.

(** What client.go needs of net/url, net/http and encoding/json besides
    the functions above, given as an interface: parsing and printing of
    URLs, the transport, and the decoding of a response into the types
    of types.go. *)
Class NetLib : Type := {
  (** the fields of [url.URL] other than [RawQuery] *)
  url_parts : Type;
  (** [url.Parse]; [None] is an error *)
  url_Parse : string → option (url.URL url_parts);
  (** [url.ParseQuery], errors dropped as in [u.Query()] *)
  url_ParseQuery : string → url.Values;
  (** [u.String()] *)
  URL_String : url.URL url_parts → string;
  (** the URL of the request that [http.NewRequest] builds from a text *)
  NewRequest_URL : string → option (url.URL url_parts);
  (** [*http.Client] *)
  http_Client : Type;
  (** [&http.Client{Timeout: d}], [d] in nanoseconds *)
  http_Client_Timeout : Z → http_Client;
  (** [client.Do(req)]; [None] is an error *)
  http_Do : http_Client → http.Request (url.URL url_parts) → option http.Response;
  (** [InvitationResult] of types.go, and [json.Unmarshal] into a
      variable of this type and of the type [InvitationsResponse];
      [None] is an error *)
  InvitationResult : Type;
  Unmarshal_InvitationResult : list byte → option InvitationResult;
  Unmarshal_InvitationsResponse :
    list byte → option (InvitationsResponse InvitationResult);
}.

(* ===================================================================== *)
(** * client.go: the constructors and the calls of the API *)
(* ===================================================================== *)

(** [type APIError struct] of types.go *)
Record APIError : Type :=
  { ErrStatusCode : Z; Message : string; Details : string }.

(** [func (e *APIError) Error() string] *)
Definition APIError_Error (e : APIError) : string := Message e.

(** The errors of [apiRequest] and of its callers: the five built with
    [fmt.Errorf] ("failed to parse URL", "failed to marshal request
    body", "failed to create request", "request failed", "failed to read
    response body"), an [*APIError], and "failed to unmarshal response"
    of the callers. *)
Inductive api_error : Type :=
  | ErrParseURL
  | ErrMarshalRequestBody
  | ErrCreateRequest
  | ErrRequestFailed
  | ErrReadResponseBody
  | ErrAPI (e : APIError)
  | ErrUnmarshalResponse.

(** [type InvitationTarget struct] and [type AcceptInvitationRequest
    struct] of types.go, and the values that [json.Marshal] sees. *)
Record InvitationTarget : Type := { TargetType : string; TargetValue : string }.

Record AcceptInvitationRequest : Type :=
  { InvitationIDs : option (list string); Target : InvitationTarget }.

Definition InvitationTarget_value (t : InvitationTarget) : value :=
  VStruct [("type", VString (TargetType t)); ("value", VString (TargetValue t))].

Definition AcceptInvitationRequest_value (r : AcceptInvitationRequest) : value :=
  VStruct [("invitationIds", VStringSlice (InvitationIDs r));
           ("target", InvitationTarget_value (Target r))].

(** The constants of client.go. *)
Definition defaultBaseURL : string := "https://api.vortexsoftware.com".
Definition userAgent : string := "vortex-go-sdk/1.0.0".

(** [30 * time.Second], in nanoseconds. *)
Definition defaultTimeout : Z := 30 * 1000000000.

Section api.
Context `{NetLib}.

(** The [Client] of client.go with its third field, [httpClient], which
    the record [Client] above leaves out. *)
Record APIClient : Type := { client : Client; httpClient : http_Client }.

(** [func NewClient(apiKey string) *Client]; [env] is the value of
    [os.Getenv("VORTEX_API_BASE_URL")], empty when the variable is not
    set. *)
Definition NewClient (env : string) (apiKey : string) : APIClient :=
  let baseURL := env in
  let baseURL := if String.eqb baseURL "" then defaultBaseURL else baseURL in
  {| client := {| vortex.apiKey := apiKey; vortex.baseURL := baseURL |};
     httpClient := http_Client_Timeout defaultTimeout |}.

(** [func NewClientWithOptions(apiKey, baseURL string, httpClient
    *http.Client) *Client] *)
Definition NewClientWithOptions (apiKey baseURL : string)
    (httpClient : option http_Client) : APIClient :=
  let baseURL := if String.eqb baseURL "" then defaultBaseURL else baseURL in
  let httpClient := match httpClient with
                    | None => http_Client_Timeout defaultTimeout
                    | Some h => h
                    end in
  {| client := {| vortex.apiKey := apiKey; vortex.baseURL := baseURL |};
     httpClient := httpClient |}.

(** [q.Add(key, value)] in the loop over [queryParams]. *)
Definition add_param (q : url.Values) (kv : string * string) : url.Values :=
  url.Add q (fst kv) (snd kv).

(** Lines 173 to 185 of [apiRequest]: the URL. [order] is the sequence
    of entries that [range queryParams] yields. *)
Definition requestURL (order : list (string * string)) (c : APIClient)
    (path : string) (queryParams : option (gmap string string))
  : option (url.URL url_parts) :=
  match url_Parse (baseURL (client c) +:+ path) with
  | None => None
  | Some u =>
      match queryParams with
      | Some _ =>
          let q := url_ParseQuery (url.RawQuery u) in
          let q := fold_left add_param order q in
          Some {| url.url_parts := url.url_parts u;
                  url.RawQuery := url.Encode q |}
      | None => Some u
      end
  end.

(** [http.NewRequest(method, url, body)]: an empty method stands for
    GET, a method that is not a token and a URL that does not parse are
    errors; the request has no header yet. *)
Definition NewRequest (method urlStr : string) (body : option (list byte))
  : option (http.Request (url.URL url_parts)) :=
  let method := if String.eqb method "" then "GET" else method in
  if negb (http.validMethod method) then None else
  match NewRequest_URL urlStr with
  | None => None
  | Some u => Some (http.Build_Request method u body ∅)
  end.

(** Lines 173 to 206 of [apiRequest]: the request that is sent, or the
    error that comes before any is. *)
Definition prepareRequest (order : list (string * string)) (c : APIClient)
    (method path : string) (body : option value)
    (queryParams : option (gmap string string))
  : http.Request (url.URL url_parts) + api_error :=
  match requestURL order c path queryParams with
  | None => inr ErrParseURL
  | Some u =>
      match (match body with
             | Some b => option_map Some (Marshal b)
             | None => Some None
             end) with
      | None => inr ErrMarshalRequestBody
      | Some bodyReader =>
          match NewRequest method (URL_String u) bodyReader with
          | None => inr ErrCreateRequest
          | Some req =>
              let header := http.Header_Set (http.ReqHeader req)
                              "Content-Type" "application/json" in
              let header := http.Header_Set header "x-api-key"
                              (apiKey (client c)) in
              let header := http.Header_Set header "User-Agent" userAgent in
              inl (http.Build_Request (http.Method req) (http.ReqURL req)
                     (http.ReqBody req) header)
          end
      end
  end.

(** Lines 209 to 236 of [apiRequest]: what is made of the answer of
    [c.httpClient.Do(req)]. The pair is Go's [([]byte, error)]. *)
Definition handleResponse (answer : option http.Response)
  : option (list byte) * option api_error :=
  match answer with
  | None => (None, Some ErrRequestFailed)
  | Some resp =>
      match http.RespBody resp with
      | None => (None, Some ErrReadResponseBody)
      | Some responseBody =>
          if (400 <=? http.StatusCode resp)%Z then
            (None,
             Some (ErrAPI
               {| ErrStatusCode := http.StatusCode resp;
                  Message := "Vortex API request failed: " +:+
                             FormatInt (http.StatusCode resp) +:+ " " +:+
                             http.Status resp;
                  Details := String.string_of_list_byte responseBody |}))
          else if (length responseBody =? 0)%nat
                  || String.eqb (String.string_of_list_byte responseBody) ""
          then (Some (bytes "{}"), None)
          else (Some responseBody, None)
      end
  end.

(** [func (c *Client) apiRequest(method, path string, body interface{},
    queryParams map[string]string) ([]byte, error)] *)
Definition apiRequest (order : list (string * string)) (c : APIClient)
    (method path : string) (body : option value)
    (queryParams : option (gmap string string))
  : option (list byte) * option api_error :=
  match prepareRequest order c method path body queryParams with
  | inr err => (None, Some err)
  | inl req => handleResponse (http_Do (httpClient c) req)
  end.

(** The end of the callers that decode one invitation. *)
Definition decodeInvitation (r : option (list byte) * option api_error)
  : option InvitationResult * option api_error :=
  match r with
  | (_, Some err) => (None, Some err)
  | (responseBody, None) =>
      match Unmarshal_InvitationResult (default [] responseBody) with
      | None => (None, Some ErrUnmarshalResponse)
      | Some invitation => (Some invitation, None)
      end
  end.

(** The end of the callers that decode a list of invitations. *)
Definition decodeInvitations (r : option (list byte) * option api_error)
  : option (list InvitationResult) * option api_error :=
  match r with
  | (_, Some err) => (None, Some err)
  | (responseBody, None) =>
      match Unmarshal_InvitationsResponse (default [] responseBody) with
      | None => (None, Some ErrUnmarshalResponse)
      | Some response => (Invitations response, None)
      end
  end.

(** [GetInvitationsByTarget]; [order] is the order of the range over
    the two query parameters. *)
Definition GetInvitationsByTarget (order : list (string * string))
    (c : APIClient) (targetType targetValue : string)
  : option (list InvitationResult) * option api_error :=
  let queryParams : gmap string string :=
    <["targetValue" := targetValue]> (<["targetType" := targetType]> ∅) in
  decodeInvitations
    (apiRequest order c "GET" "/api/v1/invitations" None (Some queryParams)).

(** [GetInvitation] *)
Definition GetInvitation (c : APIClient) (invitationID : string)
  : option InvitationResult * option api_error :=
  let path := "/api/v1/invitations/" +:+ invitationID in
  decodeInvitation (apiRequest [] c "GET" path None None).

(** [RevokeInvitation] *)
Definition RevokeInvitation (c : APIClient) (invitationID : string)
  : option api_error :=
  let path := "/api/v1/invitations/" +:+ invitationID in
  snd (apiRequest [] c "DELETE" path None None).

(** [AcceptInvitations] *)
Definition AcceptInvitations (c : APIClient)
    (invitationIDs : option (list string)) (target : InvitationTarget)
  : option InvitationResult * option api_error :=
  let requestBody :=
    {| InvitationIDs := invitationIDs; Target := target |} in
  decodeInvitation
    (apiRequest [] c "POST" "/api/v1/invitations/accept"
       (Some (AcceptInvitationRequest_value requestBody)) None).

(** [DeleteInvitationsByGroup] *)
Definition DeleteInvitationsByGroup (c : APIClient) (groupType groupID : string)
  : option api_error :=
  let path :=
    "/api/v1/invitations/by-group/" +:+ groupType +:+ "/" +:+ groupID in
  snd (apiRequest [] c "DELETE" path None None).

(** [GetInvitationsByGroup] *)
Definition GetInvitationsByGroup (c : APIClient) (groupType groupID : string)
  : option (list InvitationResult) * option api_error :=
  let path :=
    "/api/v1/invitations/by-group/" +:+ groupType +:+ "/" +:+ groupID in
  decodeInvitations (apiRequest [] c "GET" path None None).

(** [Reinvite] *)
Definition Reinvite (c : APIClient) (invitationID : string)
  : option InvitationResult * option api_error :=
  let path := "/api/v1/invitations/" +:+ invitationID +:+ "/reinvite" in
  decodeInvitation (apiRequest [] c "POST" path None None).

End api.

(* ===================================================================== *)
(** * A test double of the libraries, as the servers of client_test.go *)
(* ===================================================================== *)

(** URLs are kept as their text before the query; an [http.Client] is the
    server that answers; an invitation is decoded to the bytes of its
    JSON. *)
Definition mock_URL (s : string) : url.URL string :=
  {| url.url_parts := s; url.RawQuery := "" |}.

Definition mock_URL_String (u : url.URL string) : string :=
  if String.eqb (url.RawQuery u) "" then url.url_parts u
  else url.url_parts u +:+ "?" +:+ url.RawQuery u.

Definition mock_lib : NetLib :=
  {| url_parts := string;
     url_Parse := λ s, Some (mock_URL s);
     url_ParseQuery := λ _, ∅;
     URL_String := mock_URL_String;
     NewRequest_URL := λ s, Some (mock_URL s);
     http_Client := http.Request (url.URL string) → option http.Response;
     http_Client_Timeout := λ _ _, None;
     http_Do := λ server req, server req;
     InvitationResult := list byte;
     Unmarshal_InvitationResult := λ b, Some b;
     Unmarshal_InvitationsResponse := λ b, Some {| Invitations := Some [b] |} |}.

(** The server of [TestAPIRequest_Error]. *)
Definition not_found_server (req : http.Request (url.URL string))
  : option http.Response :=
  Some {| http.StatusCode := 404; http.Status := "404 Not Found";
          http.RespBody := Some (bytes "Not found") |}.

(** The server of [TestRevokeInvitation]: no content. *)
Definition no_content_server (req : http.Request (url.URL string))
  : option http.Response :=
  Some {| http.StatusCode := 204; http.Status := "204 No Content";
          http.RespBody := Some [] |}.

(** A server that answers with the URL and the API key of the request. *)
Definition echo_server (req : http.Request (url.URL string))
  : option http.Response :=
  Some {| http.StatusCode := 200; http.Status := "200 OK";
          http.RespBody :=
            Some (bytes (http.Method req +:+ " " +:+
                         url.url_parts (http.ReqURL req) +:+ " " +:+
                         http.Header_Get (http.ReqHeader req) "x-api-key")) |}.

Definition mock_client (server : http.Request (url.URL string) → option http.Response)
  : @APIClient mock_lib :=
  @NewClientWithOptions mock_lib "test-api-key" "http://127.0.0.1" (Some server).

(** A character that [url.QueryEscape] may write. *)
Definition query_char (c : ascii) : bool :=
  negb (url.shouldEscape c) || Ascii.eqb c "%"%char || Ascii.eqb c "+"%char.

(** The range orders of a map of strings. *)
Definition params_order (m : option (gmap string string))
    (order : list (string * string)) : Prop :=
  match m with
  | Some m => order ≡ₚ map_to_list m
  | None => True
  end.

(** The bytes that [apiRequest] returns for a body read with a status
    code below 400. *)
Definition success_bytes (responseBody : list byte) : list byte :=
  match responseBody with
  | [] => bytes "{}"
  | _ => responseBody
  end.

(** The [*APIError] for an answer. *)
Definition answer_error (resp : http.Response) (responseBody : list byte)
  : APIError :=
  {| ErrStatusCode := http.StatusCode resp;
     Message := "Vortex API request failed: " +:+
                FormatInt (http.StatusCode resp) +:+ " " +:+ http.Status resp;
     Details := String.string_of_list_byte responseBody |}.

(** An error that leaves no doubt that the server refused, or that
    nothing was sent. *)
Definition refused (e : APIError) (err : option api_error) : Prop :=
  err = Some (ErrAPI e) ∨ err = Some ErrParseURL ∨ err = Some ErrCreateRequest.

(** The JSON text of the body of [AcceptInvitations]. *)
Definition accept_text (r : AcceptInvitationRequest) : string :=
  "{" +:+ quoted "invitationIds" +:+ ":" +:+
  match InvitationIDs r with
  | None => "null"
  | Some ids => "[" +:+ join (map appendString ids) +:+ "]"
  end +:+ "," +:+
  quoted "target" +:+ ":{" +:+
  quoted "type" +:+ ":" +:+ appendString (TargetType (Target r)) +:+ "," +:+
  quoted "value" +:+ ":" +:+ appendString (TargetValue (Target r)) +:+ "}}".

(** The characters that structure a URL and its query. *)
Definition query_separator (c : ascii) : bool :=
  bool_decide (c ∈ ["&"; "="; "?"; "#"; "/"; ";"; " "]%char).

(** The request of the test client for a call without body. *)
Definition test_request (method path : string)
  : http.Request (url.URL string) :=
  {| http.Method := method;
     http.ReqURL := mock_URL ("http://127.0.0.1" +:+ path);
     http.ReqBody := None;
     http.ReqHeader :=
       list_to_map [("Content-Type", ["application/json"]);
                    ("X-Api-Key", ["test-api-key"]);
                    ("User-Agent", ["vortex-go-sdk/1.0.0"])] |}.

(** The two query parameters of [TestAPIRequest_Success]. *)
Definition test_params : gmap string string :=
  <["targetValue" := "test@example.com"]> (<["targetType" := "email"]> ∅).

(** The answers of the two servers. *)
Definition not_found : http.Response :=
  {| http.StatusCode := 404; http.Status := "404 Not Found";
     http.RespBody := Some (bytes "Not found") |}.

Definition no_content : http.Response :=
  {| http.StatusCode := 204; http.Status := "204 No Content";
     http.RespBody := Some [] |}.

(* ===================================================================== *)
(** * The embedding on known values *)
(* ===================================================================== *)

Example split_ex :
  strings.Split "VRTX.EjRWeBI0EjQSNBI0VniQEg.test-key" "."%char
  = ["VRTX"; "EjRWeBI0EjQSNBI0VniQEg"; "test-key"].
Proof. reflexivity. Qed.

Example split_empty_ex : strings.Split "" "."%char = [""].
Proof. reflexivity. Qed.

(** The identifier of the test key is the UUID named in client_test.go. *)
Example uuid_ex :
  (uuid.String_ <$> base64.DecodeString "EjRWeBI0EjQSNBI0VniQEg")
  = Some "12345678-1234-1234-1234-123456789012".
Proof. vm_compute. reflexivity. Qed.

(** The test vectors of RFC 4648, without padding, and the two
    characters that the URL alphabet changes. *)
Example base64_ex :
  map (λ s, base64.EncodeToString (bytes s)) ["f"; "fo"; "foo"; "foob"; "fooba"]
  = ["Zg"; "Zm8"; "Zm9v"; "Zm9vYg"; "Zm9vYmE"] ∧
  base64.EncodeToString [xfb; xff] = "-_8".
Proof. split; vm_compute; reflexivity. Qed.

(** FIPS 180-4 and RFC 4231 test vectors. *)
Example sha256_abc :
  hex_of (sha256.Sum256 (bytes "abc"))
  = "ba7816bf8f01cfea414140de5dae2223b00361a396177a9cb410ff61f20015ad".
Proof. vm_compute. reflexivity. Qed.

Example sha256_two_blocks :
  hex_of (sha256.Sum256
    (bytes "abcdbcdecdefdefgefghfghighijhijkijkljklmklmnlmnomnopnopq"))
  = "248d6a61d20638b8e5c026930c3e6039a33ce45964ff2167f6ecedd419db06c1".
Proof. vm_compute. reflexivity. Qed.

Example hmac_rfc4231_2 :
  hex_of (hmac.Sum (bytes "Jefe") (bytes "what do ya want for nothing?"))
  = "5bdcc146bf60754e6a042426089575c75a003f089d2739839dec58b964ec3843".
Proof. vm_compute. reflexivity. Qed.

Example hmac_long_key :
  hex_of (hmac.Sum (replicate 131 xaa)
    (bytes "Test Using Larger Than Block-Size Key - Hash Key First"))
  = "60e431591ee0b67f0d8a26aacbf5b77f8e0bc6213728c5140546040f0ee37f54".
Proof. vm_compute. reflexivity. Qed.

(** Keys in byte order, HTML-sensitive characters escaped. *)
Example json_ex :
  encode (VMap (Some (<["b" := VStringSlice (Some ["x"; "y<"])]>
     (<["a" := VInt64 (-42)]>
        (<["B" := VSlice (Some [VNil; VBool true])]> ∅)))))
  = Some (String.concat (String quote "")
      ["{"; "B"; ":[null,true],"; "a"; ":-42,"; "b"; ":["; "x"; ",";
       "y\u003c"; "]}"]).
Proof. vm_compute. reflexivity. Qed.

(** The token of [TestGenerateJWT] at a fixed clock. *)
Example jwt_ex :
  GenerateJWT 1700000000 [] test_client (Some test_user) None
  = Return
      ("eyJpYXQiOjE3MDAwMDAwMDAsImFsZyI6IkhTMjU2IiwidHlwIjoiSldUIiwia2lkIjoiMTIzNDU2NzgtMTIzNC0xMjM0LTEyMzQtMTIzNDU2Nzg5MDEyIn0"
       +:+ ".eyJhZG1pblNjb3BlcyI6WyJhdXRvSm9pbiJdLCJleHBpcmVzIjoxNzAwMDAzNjAwLCJ1c2VyRW1haWwiOiJ0ZXN0QGV4YW1wbGUuY29tIiwidXNlcklkIjoidXNlci0xMjMifQ"
       +:+ ".oL92zQFEW2Jtvyfvduo9tGvvYSwktJeBI6uTHW_w2xU") None.
Proof. vm_compute. reflexivity. Qed.

Example jwt_extra_ex :
  GenerateJWT 1700000000 (map_to_list test_extra) test_client
    (Some test_user) (Some test_extra)
  = Return
      ("eyJpYXQiOjE3MDAwMDAwMDAsImFsZyI6IkhTMjU2IiwidHlwIjoiSldUIiwia2lkIjoiMTIzNDU2NzgtMTIzNC0xMjM0LTEyMzQtMTIzNDU2Nzg5MDEyIn0"
       +:+ ".eyJhZG1pblNjb3BlcyI6WyJhdXRvSm9pbiJdLCJkZXBhcnRtZW50IjoiRW5naW5lZXJpbmciLCJleHBpcmVzIjoxNzAwMDAzNjAwLCJyb2xlIjoiYWRtaW4iLCJ1c2VyRW1haWwiOiJ0ZXN0QGV4YW1wbGUuY29tIiwidXNlcklkIjoidXNlci0xMjMifQ"
       +:+ ".iEdqrCArjKbu624k8nsw3VSJ5NsCRqCrpK8m0fSnktE") None.
Proof. vm_compute. reflexivity. Qed.

(** The three keys of [TestGenerateJWT_InvalidAPIKey]. *)
Example invalid_key_ex :
  map (fun k => GenerateJWT 1700000000 []
                  {| apiKey := k; baseURL := "" |} (Some test_user) None)
      ["invalid-key"; "WRONG.EjRWeBI0EjQSNBI0VniQEg.test-key";
       "VRTX.invalid-base64.test-key"]
  = [Return "" (Some ErrInvalidAPIKeyFormat);
     Return "" (Some ErrInvalidAPIKeyPrefix);
     Return "" (Some (ErrParseUUID 10))].
Proof. vm_compute. reflexivity. Qed.

(** The key of the specification with characters outside the alphabet. *)
Example invalid_base64_ex :
  parseAPIKey "VRTX.invalid-base64!!.secret" = inr ErrDecodeAPIKeyID.
Proof. vm_compute. reflexivity. Qed.

(** Line ends inside the identifier are skipped by the decoder. *)
Example newline_ex :
  parseAPIKey ("VRTX.EjRWeBI0EjQ" +:+ String "010" "SNBI0VniQEg.test-key")
  = parseAPIKey "VRTX.EjRWeBI0EjQSNBI0VniQEg.test-key".
Proof. vm_compute. reflexivity. Qed.

(** Escapes of [appendString]: a tab, a character of HTML, a byte that is
    not UTF-8, the line separator U+2028, and a two-byte character that
    is copied. *)
Example escape_ex :
  map escape
    [String "009" "x"; "a<b"; String "255" "";
     String "226" (String "128" (String "168" ""));
     String "195" (String "169" "")]
  = ["\tx"; "a\u003cb"; "\ufffd"; "\u2028";
     String "195" (String "169" "")].
Proof. vm_compute. reflexivity. Qed.

(** At the last second of [int64] the sum [now + 3600] wraps; no clock
    reads such a value. *)
Example expires_wraps_ex :
  buildPayload (2 ^ 63 - 1) [] test_user None !! "expires"
  = Some (VInt64 (- 2 ^ 63 + 3599)).
Proof. vm_compute. reflexivity. Qed.

(** A nil user on a well-formed key, and on a malformed one. *)
Example nil_user_ex :
  GenerateJWT 1700000000 [] test_client None None = Panic ∧
  GenerateJWT 1700000000 [] {| apiKey := "invalid-key"; baseURL := "" |}
    None None = Return "" (Some ErrInvalidAPIKeyFormat).
Proof. split; vm_compute; reflexivity. Qed.

Example splitJWT_ex :
  map splitJWT ["a.b.c"; ""; "."; "a."; "a.."; ".a"; "a"]
  = [["a"; "b"; "c"]; []; [""]; ["a"]; ["a"; ""]; [""; "a"]; ["a"]].
Proof. vm_compute. reflexivity. Qed.

(** Characters of two, three and four bytes are copied; a byte that is
    not UTF-8 becomes U+FFFD. *)
Example splitJWT_utf8_ex :
  splitJWT (String "195" (String "169" (String "046"
              (String "226" (String "130" (String "172"
              (String "240" (String "159" (String "152" (String "128"
              (String "046" (String "255" ""))))))))))))
  = [String "195" (String "169" "");
     String "226" (String "130" (String "172"
       (String "240" (String "159" (String "152" (String "128" ""))))));
     String "239" (String "191" (String "189" ""))].
Proof. vm_compute. reflexivity. Qed.

Example QueryEscape_ex :
  map url.QueryEscape ["test@example.com"; "a b&c=d"; "x-y_z.~"; "100%"]
  = ["test%40example.com"; "a+b%26c%3Dd"; "x-y_z.~"; "100%25"].
Proof. vm_compute. reflexivity. Qed.

Example Encode_ex :
  url.Encode (url.Add (url.Add (url.Add ∅ "b" "2") "a" "x y") "b" "3")
  = "a=x+y&b=2&b=3".
Proof. vm_compute. reflexivity. Qed.

Example CanonicalMIMEHeaderKey_ex :
  map http.CanonicalMIMEHeaderKey
    ["x-api-key"; "Content-Type"; "User-Agent"; "CONTENT-type"; "x api"]
  = ["X-Api-Key"; "Content-Type"; "User-Agent"; "Content-Type"; "x api"].
Proof. vm_compute. reflexivity. Qed.

(** A call against the echo server: method, URL with the query, and
    the API key as the server reads it. *)
Example GetInvitationsByTarget_ex :
  @GetInvitationsByTarget mock_lib
    [("targetType", "email"); ("targetValue", "test@example.com")]
    (mock_client echo_server) "email" "test@example.com"
  = (Some [bytes ("GET http://127.0.0.1/api/v1/invitations"
                  +:+ "?targetType=email&targetValue=test%40example.com"
                  +:+ " test-api-key")], None).
Proof. vm_compute. reflexivity. Qed.

(** [TestAPIRequest_Error]: the error is an [*APIError] with the status
    code 404. *)
Example not_found_ex :
  @GetInvitationsByTarget mock_lib
    [("targetType", "email"); ("targetValue", "test@example.com")]
    (mock_client not_found_server) "email" "test@example.com"
  = (None,
     Some (ErrAPI {| ErrStatusCode := 404;
                     Message := "Vortex API request failed: 404 404 Not Found";
                     Details := "Not found" |})).
Proof. vm_compute. reflexivity. Qed.

(** [TestRevokeInvitation]: no content, no error. *)
Example RevokeInvitation_ex :
  @RevokeInvitation mock_lib (mock_client no_content_server)
    "test-invitation-1" = None.
Proof. vm_compute. reflexivity. Qed.

(* ===================================================================== *)
(** * Lemmas on the library functions *)
(* ===================================================================== *)

(** ** Digests have 32 bytes *)

Lemma put32_length x : length (sha256.put32 x) = 4%nat.
Proof. reflexivity. Qed.

Lemma Sum256_length data : length (sha256.Sum256 data) = sha256.Size.
Proof.
  unfold sha256.Sum256.
  destruct (sha256.blocks _ _ _) as [[[[[[[h0 h1] h2] h3] h4] h5] h6] h7].
  rewrite !length_app, !put32_length. reflexivity.
Qed.

Lemma hmac_Sum_length key msg : length (hmac.Sum key msg) = 32%nat.
Proof. unfold hmac.Sum. apply Sum256_length. Qed.

(** ** The members of a map are written in the order of their keys *)

Lemma key_le_total {A} : Total (@key_le A).
Proof. intros x y. unfold key_le. rewrite !Is_true_true. apply String.leb_total. Qed.

Lemma members_sorted {A} (l : list (string * A)) :
  Sorted key_le (merge_sort key_le l).
Proof. apply (@Sorted_merge_sort _ key_le _ key_le_total). Qed.

(** ** The canonical form of a UUID has 36 characters *)

Lemma hex_encode_length b :
  String.length (uuid.hex_encode b) = (2 * length b)%nat.
Proof.
  induction b as [|x b IH]; [done|].
  cbn [uuid.hex_encode String.length length]. rewrite IH. lia.
Qed.

Lemma string_length_app (a b : string) :
  String.length (a +:+ b) = (String.length a + String.length b)%nat.
Proof.
  induction a as [|x a IH]; [done|].
  change (String x a +:+ b) with (String x (a +:+ b)).
  cbn [String.length]. by rewrite IH.
Qed.

Lemma uuid_String_length u :
  length u = 16%nat → String.length (uuid.String_ u) = 36%nat.
Proof.
  intros Hu. unfold uuid.String_.
  rewrite !string_length_app, !hex_encode_length, !length_take, !length_drop.
  cbn [String.length]. lia.
Qed.

(** ** The range loop computes a union *)

Lemma fold_left_assign (order : list (string * value)) :
  NoDup order.*1 →
  ∀ payload : gmap string value,
    fold_left assign order payload = list_to_map order ∪ payload.
Proof.
  induction order as [|[k v] order IH]; intros Hnd payload.
  - simpl. by rewrite (left_id_L ∅ (∪)).
  - rewrite fmap_cons in Hnd. apply NoDup_cons in Hnd as [Hk Hnd].
    cbn [fold_left list_to_map foldr uncurry curry].
    rewrite (IH Hnd). unfold assign at 1; simpl.
    rewrite <- insert_union_l. symmetry. apply insert_union_r.
    by apply not_elem_of_list_to_map_1.
Qed.

Lemma range_assign (m : gmap string value) order payload :
  order ≡ₚ map_to_list m → fold_left assign order payload = m ∪ payload.
Proof.
  intros Hp. rewrite fold_left_assign.
  - f_equal. rewrite <- (list_to_map_to_list m).
    apply list_to_map_proper; [|done].
    rewrite Hp. apply NoDup_fst_map_to_list.
  - rewrite Hp. apply NoDup_fst_map_to_list.
Qed.

(* ===================================================================== *)
(** * Lemmas on [GenerateJWT] *)
(* ===================================================================== *)

(** ** What a parsed key is *)

Lemma parseAPIKey_inl apiKey id key :
  parseAPIKey apiKey = inl (id, key) ↔
  ∃ encodedID,
    strings.Split apiKey "."%char = ["VRTX"; encodedID; key] ∧
    base64.DecodeString encodedID = Some id ∧ length id = 16%nat.
Proof.
  unfold parseAPIKey, uuid.FromBytes.
  destruct (strings.Split apiKey ".") as [|p0 [|p1 [|p2 [|p3 parts]]]];
    simpl; try (split; [done | by intros (? & ? & _)]).
  destruct (String.eqb_spec p0 "VRTX") as [->|Hp]; simpl;
    [|split; [done | intros (? & ? & _); congruence]].
  destruct (base64.DecodeString p1) as [uuidBytes|] eqn:Hdec;
    [|split; [done | intros (? & ? & ? & _); congruence]].
  destruct (Nat.eqb_spec (length uuidBytes) 16) as [Hlen|Hlen]; split.
  - intros [= <- <-]. eauto.
  - intros (? & [= <- <-] & Hd & _). congruence.
  - done.
  - intros (? & [= <- <-] & Hd & Hl). congruence.
Qed.

(** The outcome of a call on a key that parses. *)
Lemma GenerateJWT_parsed now order c user extra id key :
  parseAPIKey (apiKey c) = inl (id, key) →
  GenerateJWT now order c user extra =
  match user with
  | None => Panic
  | Some u =>
      match Marshal (JWTHeader_value (buildHeader now id)) with
      | None => Return "" (Some ErrMarshalHeader)
      | Some headerJSON =>
          match Marshal (VMap (Some (buildPayload now order u extra))) with
          | None => Return "" (Some ErrMarshalPayload)
          | Some payloadJSON =>
              Return (signToken (deriveSigningKey key id) headerJSON payloadJSON)
                     None
          end
      end
  end.
Proof. intros Hp. unfold GenerateJWT. by rewrite Hp. Qed.

Lemma GenerateJWT_not_parsed now order c user extra err :
  parseAPIKey (apiKey c) = inr err →
  GenerateJWT now order c user extra = Return "" (Some err).
Proof. intros Hp. unfold GenerateJWT. by rewrite Hp. Qed.

(** ** The payload as a union *)

Lemma buildPayload_order now order1 order2 u extra :
  range_order extra order1 → range_order extra order2 →
  buildPayload now order1 u extra = buildPayload now order2 u extra.
Proof.
  unfold buildPayload, range_order. destruct extra as [m|]; [|done].
  intros H1 H2. by rewrite !(range_assign m).
Qed.

(** ** Strings *)

Lemma string_app_cons x (a b : string) : String x a +:+ b = String x (a +:+ b).
Proof. reflexivity. Qed.

Lemma string_app_nil_l (a : string) : "" +:+ a = a.
Proof. reflexivity. Qed.

Lemma string_app_assoc (a b c : string) : (a +:+ b) +:+ c = a +:+ (b +:+ c).
Proof.
  induction a as [|x a IH]; [done|].
  rewrite !string_app_cons. by rewrite IH.
Qed.

Lemma string_app_nil_r (a : string) : a +:+ "" = a.
Proof.
  induction a as [|x a IH]; [done|]. rewrite string_app_cons. by rewrite IH.
Qed.


Lemma all_chars_app p a b :
  all_chars p (a +:+ b) = all_chars p a && all_chars p b.
Proof.
  induction a as [|x a IH]; [done|].
  rewrite string_app_cons. simpl. by rewrite IH, andb_assoc.
Qed.

Lemma all_chars_impl (p q : ascii → bool) s :
  (∀ c, p c = true → q c = true) → all_chars p s = true → all_chars q s = true.
Proof.
  intros Hpq. induction s as [|x s IH]; simpl; [done|].
  rewrite !andb_true_iff. intros [Hx Hs]. auto.
Qed.

(** ** [strings.Split] *)


Lemma split_at_no_sep sep s :
  all_chars (not_sep sep) s = true →
  ∀ cur, strings.split_at sep cur s = [cur +:+ s].
Proof.
  induction s as [|x s IH]; simpl; intros Hs cur.
  - by rewrite string_app_nil_r.
  - apply andb_true_iff in Hs as [Hx Hs]. unfold not_sep in Hx.
    destruct (Ascii.eqb x sep); [done|].
    rewrite (IH Hs), string_app_assoc. done.
Qed.

Lemma split_at_sep sep s t :
  all_chars (not_sep sep) s = true →
  ∀ cur, strings.split_at sep cur (s +:+ String sep t)
         = (cur +:+ s) :: strings.split_at sep "" t.
Proof.
  induction s as [|x s IH]; intros Hs cur.
  - rewrite string_app_nil_l, string_app_nil_r. simpl.
    by rewrite Ascii.eqb_refl.
  - rewrite string_app_cons. simpl in *.
    apply andb_true_iff in Hs as [Hx Hs]. unfold not_sep in Hx.
    destruct (Ascii.eqb x sep); [done|].
    rewrite (IH Hs), string_app_assoc. done.
Qed.

(** Three segments without the separator, joined by it, split back. *)
Lemma Split_three sep a b c :
  all_chars (not_sep sep) a = true →
  all_chars (not_sep sep) b = true →
  all_chars (not_sep sep) c = true →
  strings.Split (a +:+ String sep (b +:+ String sep c)) sep = [a; b; c].
Proof.
  intros Ha Hb Hc. unfold strings.Split.
  rewrite (split_at_sep _ _ _ Ha), (split_at_sep _ _ _ Hb),
    (split_at_no_sep _ _ Hc). done.
Qed.

(** The number of segments is one more than the number of separators. *)
Lemma split_at_length sep s :
  ∀ cur, length (strings.split_at sep cur s)
         = S (length (filter (λ c, c = sep) (String.list_ascii_of_string s))).
Proof.
  induction s as [|x s IH]; simpl; intros cur; [done|].
  destruct (Ascii.eqb_spec x sep) as [->|Hne].
  - rewrite filter_cons_True by done. simpl. by rewrite IH.
  - rewrite filter_cons_False by done. by rewrite IH.
Qed.

(** ** Bytes and integers *)

Local Open Scope Z_scope.

Lemma byte_to_Z_range b : 0 ≤ byte_to_Z b < 256.
Proof.
  unfold byte_to_Z. pose proof (Byte.to_N_bounded b). lia.
Qed.

Lemma Z_to_byte_to_Z b : Z_to_byte (byte_to_Z b) = b.
Proof.
  unfold Z_to_byte. pose proof (byte_to_Z_range b).
  rewrite Z.mod_small by lia. unfold byte_to_Z.
  by rewrite N2Z.id, Byte.of_to_N.
Qed.

Lemma Z_to_byte_mod z : Z_to_byte (z mod 256) = Z_to_byte z.
Proof. unfold Z_to_byte. by rewrite Z.mod_mod by lia. Qed.

(** A value below [2^k] placed under a shifted one: [lor] is a sum. *)
Lemma lor_shiftl_add hi lo k :
  0 ≤ k → 0 ≤ lo < 2 ^ k → Z.lor (Z.shiftl hi k) lo = hi * 2 ^ k + lo.
Proof.
  intros Hk Hlo. rewrite <- Z.shiftl_mul_pow2 by done.
  symmetry. apply Z.add_nocarry_lor. apply Z.bits_inj'. intros n Hn.
  rewrite Z.land_spec, Z.bits_0.
  destruct (Z.lt_ge_cases n k) as [Hlt|Hge].
  - by rewrite Z.shiftl_spec_low.
  - destruct (Z.eq_dec lo 0) as [->|Hne].
    + by rewrite Z.bits_0, andb_false_r.
    + rewrite (Z.bits_above_log2 lo n), andb_false_r; [done|lia|].
      apply Z.lt_le_trans with k; [|done]. apply Z.log2_lt_pow2; lia.
Qed.

Lemma land_63 v : Z.land v 63 = v mod 64.
Proof. change 63 with (Z.ones 6). by rewrite Z.land_ones. Qed.

(** ** The alphabet *)

Lemma encode_char_spec (n : nat) :
  (n < 64)%nat →
  in_alphabet (base64.encode_char (Z.of_nat n)) = true ∧
  base64.decodeMap (base64.encode_char (Z.of_nat n)) = Some (Z.of_nat n).
Proof.
  intros Hn.
  do 64 (destruct n as [|n]; [by vm_compute|]). lia.
Qed.

Lemma sextet_decode val shift :
  base64.decodeMap (base64.sextet val shift) = Some (Z.shiftr val shift mod 64).
Proof.
  unfold base64.sextet. rewrite land_63.
  pose proof (Z.mod_pos_bound (Z.shiftr val shift) 64 ltac:(lia)) as Hb.
  destruct (encode_char_spec (Z.to_nat (Z.shiftr val shift mod 64))) as [_ H];
    [lia|].
  by rewrite Z2Nat.id in H by lia.
Qed.

Lemma sextet_alphabet val shift :
  in_alphabet (base64.sextet val shift) = true.
Proof.
  unfold base64.sextet. rewrite land_63.
  pose proof (Z.mod_pos_bound (Z.shiftr val shift) 64 ltac:(lia)) as Hb.
  destruct (encode_char_spec (Z.to_nat (Z.shiftr val shift mod 64))) as [H _];
    [lia|].
  by rewrite Z2Nat.id in H by lia.
Qed.

Lemma decodeMap_alphabet c :
  in_alphabet c = true ↔ is_Some (base64.decodeMap c).
Proof.
  destruct c as [[] [] [] [] [] [] [] []]; vm_compute;
    (split; [intros _; eauto | done]) || (split; [done | by intros [? [=]]]).
Qed.

Lemma alphabet_not_dot c : in_alphabet c = true → not_sep "." c = true.
Proof.
  destruct c as [[] [] [] [] [] [] [] []]; vm_compute; done.
Qed.


(** Lists three elements at a time. *)
Lemma list_ind3 {A} (P : list A → Prop) :
  P [] → (∀ a, P [a]) → (∀ a b, P [a; b]) →
  (∀ a b c l, P l → P (a :: b :: c :: l)) →
  ∀ l, P l.
Proof.
  intros H0 H1 H2 H3 l.
  cut (P l ∧ (∀ a, P (a :: l)) ∧ (∀ a b, P (a :: b :: l))); [by intros []|].
  induction l as [|x l (IH0 & IH1 & IH2)]; [by auto|].
  split; [apply IH1|]. split; [intros a; apply IH2|].
  intros a b. by apply H3.
Qed.

Lemma EncodeToString_alphabet src :
  all_chars in_alphabet (base64.EncodeToString src) = true.
Proof.
  induction src as [|a|a b|a b c l IH] using list_ind3;
    cbn [base64.EncodeToString all_chars];
    rewrite ?sextet_alphabet, ?IH; done.
Qed.

Lemma EncodeToString_no_dot src :
  all_chars (not_sep ".") (base64.EncodeToString src) = true.
Proof.
  eapply all_chars_impl; [apply alphabet_not_dot|].
  apply EncodeToString_alphabet.
Qed.

(** ** Decoding what was encoded *)

Lemma lor_add_low hi lo k :
  0 ≤ k → 0 ≤ lo < 2 ^ k → hi mod 2 ^ k = 0 → Z.lor hi lo = hi + lo.
Proof.
  intros Hk Hlo Hhi.
  assert (hi = Z.shiftl (hi / 2 ^ k) k) as Heq.
  { rewrite Z.shiftl_mul_pow2 by done.
    pose proof (Z.div_mod hi (2 ^ k) ltac:(lia)). lia. }
  rewrite Heq at 1. rewrite lor_shiftl_add by done.
  pose proof (Z.div_mod hi (2 ^ k) ltac:(lia)). lia.
Qed.

(** The 24 bits of three bytes, as [EncodeToString] packs them. *)
Lemma pack3 x0 x1 x2 :
  0 ≤ x0 < 256 → 0 ≤ x1 < 256 → 0 ≤ x2 < 256 →
  Z.lor (Z.lor (Z.shiftl x0 16) (Z.shiftl x1 8)) x2
  = x0 * 65536 + x1 * 256 + x2.
Proof.
  intros H0 H1 H2. rewrite !Z.shiftl_mul_pow2 by lia.
  change (2 ^ 16) with 65536. change (2 ^ 8) with 256.
  rewrite (lor_add_low (x0 * 65536) (x1 * 256) 16); [|lia|lia|].
  - rewrite (lor_add_low _ x2 8); [done|lia|lia|].
    change (2 ^ 8) with 256.
    replace (x0 * 65536 + x1 * 256) with ((x0 * 256 + x1) * 256) by lia.
    apply Z.mod_mul. lia.
  - change (2 ^ 16) with 65536. apply Z.mod_mul. lia.
Qed.

(** The 24 bits of four six-bit values, as [decodeQuantum] packs them. *)
Lemma pack4 d0 d1 d2 d3 :
  0 ≤ d0 < 64 → 0 ≤ d1 < 64 → 0 ≤ d2 < 64 → 0 ≤ d3 < 64 →
  Z.lor (Z.lor (Z.lor (Z.shiftl d0 18) (Z.shiftl d1 12)) (Z.shiftl d2 6)) d3
  = d0 * 262144 + d1 * 4096 + d2 * 64 + d3.
Proof.
  intros H0 H1 H2 H3. rewrite !Z.shiftl_mul_pow2 by lia.
  change (2 ^ 18) with 262144. change (2 ^ 12) with 4096.
  change (2 ^ 6) with 64.
  rewrite (lor_add_low (d0 * 262144) (d1 * 4096) 18); [|lia|lia|].
  - rewrite (lor_add_low _ (d2 * 64) 12); [|lia|lia|].
    + rewrite (lor_add_low _ d3 6); [done|lia|lia|].
      change (2 ^ 6) with 64.
      replace (d0 * 262144 + d1 * 4096 + d2 * 64)
        with ((d0 * 4096 + d1 * 64 + d2) * 64) by lia.
      apply Z.mod_mul. lia.
    + change (2 ^ 12) with 4096.
      replace (d0 * 262144 + d1 * 4096) with ((d0 * 64 + d1) * 4096) by lia.
      apply Z.mod_mul. lia.
  - change (2 ^ 18) with 262144. apply Z.mod_mul. lia.
Qed.

Lemma Z_to_byte_eq z b : z mod 256 = byte_to_Z b → Z_to_byte z = b.
Proof.
  intros H. rewrite <- Z_to_byte_mod, H. apply Z_to_byte_to_Z.
Qed.


Lemma quantum_bytes_3 a b c :
  base64.quantum_bytes
    (sextets (Z.lor (Z.lor (Z.shiftl (byte_to_Z a) 16)
                            (Z.shiftl (byte_to_Z b) 8)) (byte_to_Z c)))
  = [a; b; c].
Proof.
  pose proof (byte_to_Z_range a). pose proof (byte_to_Z_range b).
  pose proof (byte_to_Z_range c).
  rewrite pack3 by done. unfold base64.quantum_bytes, sextets.
  cbn [nth length Nat.sub take].
  rewrite !Z.shiftr_div_pow2 by lia.
  change (2 ^ 18) with 262144. change (2 ^ 12) with 4096.
  change (2 ^ 6) with 64. change (2 ^ 0) with 1.
  change (2 ^ 16) with 65536. change (2 ^ 8) with 256.
  set (val := byte_to_Z a * 65536 + byte_to_Z b * 256 + byte_to_Z c).
  rewrite pack4 by (apply Z.mod_pos_bound; lia).
  assert (val / 262144 mod 64 * 262144 + val / 4096 mod 64 * 4096
          + val / 64 mod 64 * 64 + val / 1 mod 64 = val) as ->.
  { subst val. Z.to_euclidean_division_equations. lia. }
  f_equal; [|f_equal; [|f_equal]]; apply Z_to_byte_eq; subst val;
    Z.to_euclidean_division_equations; lia.
Qed.

Lemma pack2 x0 x1 :
  0 ≤ x0 < 256 → 0 ≤ x1 < 256 →
  Z.lor (Z.shiftl x0 16) (Z.shiftl x1 8) = x0 * 65536 + x1 * 256.
Proof.
  intros H0 H1. rewrite <- (Z.lor_0_r (Z.lor _ _)).
  rewrite pack3 by lia. lia.
Qed.

Lemma quantum_bytes_2 a b :
  base64.quantum_bytes
    (take 3 (sextets (Z.lor (Z.shiftl (byte_to_Z a) 16)
                            (Z.shiftl (byte_to_Z b) 8))))
  = [a; b].
Proof.
  pose proof (byte_to_Z_range a). pose proof (byte_to_Z_range b).
  rewrite pack2 by done. unfold base64.quantum_bytes, sextets.
  cbn [nth length Nat.sub take].
  rewrite !Z.shiftr_div_pow2 by lia.
  change (2 ^ 18) with 262144. change (2 ^ 12) with 4096.
  change (2 ^ 6) with 64.
  change (2 ^ 16) with 65536. change (2 ^ 8) with 256.
  set (val := byte_to_Z a * 65536 + byte_to_Z b * 256).
  rewrite pack4 by (try apply Z.mod_pos_bound; lia).
  f_equal; [|f_equal]; apply Z_to_byte_eq; subst val;
    Z.to_euclidean_division_equations; lia.
Qed.

Lemma quantum_bytes_1 a :
  base64.quantum_bytes (take 2 (sextets (Z.shiftl (byte_to_Z a) 16))) = [a].
Proof.
  pose proof (byte_to_Z_range a).
  rewrite Z.shiftl_mul_pow2 by lia. unfold base64.quantum_bytes, sextets.
  cbn [nth length Nat.sub take].
  rewrite !Z.shiftr_div_pow2 by lia.
  change (2 ^ 18) with 262144. change (2 ^ 12) with 4096.
  change (2 ^ 16) with 65536.
  rewrite pack4 by (try apply Z.mod_pos_bound; lia).
  f_equal. apply Z_to_byte_eq.
  Z.to_euclidean_division_equations; lia.
Qed.

(** One step of the decoder on a character of the alphabet. *)
Lemma decode_alphabet_char c rest dbuf d :
  base64.decodeMap c = Some d →
  base64.decode (String c rest) dbuf =
  if (length (dbuf ++ [d]) =? 4)%nat
  then app (base64.quantum_bytes (dbuf ++ [d])) <$> base64.decode rest []
  else base64.decode rest (dbuf ++ [d]).
Proof. intros H. cbn [base64.decode]. by rewrite H. Qed.

Lemma DecodeString_EncodeToString src :
  base64.DecodeString (base64.EncodeToString src) = Some src.
Proof.
  unfold base64.DecodeString.
  induction src as [|a|a b|a b c l IH] using list_ind3;
    cbn [base64.EncodeToString].
  - done.
  - rewrite !(decode_alphabet_char _ _ _ _ (sextet_decode _ _)).
    cbn [app length Nat.eqb base64.decode].
    f_equal. apply quantum_bytes_1.
  - rewrite !(decode_alphabet_char _ _ _ _ (sextet_decode _ _)).
    cbn [app length Nat.eqb base64.decode].
    f_equal. apply quantum_bytes_2.
  - rewrite !(decode_alphabet_char _ _ _ _ (sextet_decode _ _)).
    cbn [app length Nat.eqb]. rewrite IH. cbn [fmap option_fmap option_map].
    f_equal. change (a :: b :: c :: l) with ([a; b; c] ++ l)%list.
    f_equal. apply quantum_bytes_3.
Qed.

(** ** What the decoder accepts *)

Local Close Scope Z_scope.


Lemma quantum_bytes_length dbuf :
  length (base64.quantum_bytes dbuf) = min (length dbuf - 1) 3.
Proof. unfold base64.quantum_bytes. by rewrite length_take. Qed.

Lemma in_alphabet_decodeMap c :
  in_alphabet c = match base64.decodeMap c with Some _ => true | None => false end.
Proof.
  pose proof (decodeMap_alphabet c) as H.
  destruct (base64.decodeMap c), (in_alphabet c); try done.
  - destruct H as [_ H]. by discriminate H.
  - destruct H as [H _]. by destruct H.
Qed.

(** The decoder, started with [dbuf] read, fails on a character outside
    the alphabet (line ends apart) and on one character left over; it
    returns three bytes for four characters. *)
Lemma decode_spec s :
  ∀ dbuf, length dbuf < 4 →
    match base64.decode s dbuf with
    | None =>
        match alphabet_length s with
        | None => True
        | Some n => (length dbuf + n) mod 4 = 1
        end
    | Some bs =>
        ∃ n, alphabet_length s = Some n ∧ (length dbuf + n) mod 4 ≠ 1
             ∧ length bs = 3 * (length dbuf + n) / 4
    end.
Proof.
  induction s as [|c rest IH]; intros dbuf Hlen.
  - destruct dbuf as [|d0 [|d1 [|d2 [|d3 dbuf]]]]; simpl in Hlen;
      try lia; cbn [base64.decode alphabet_length].
    + exists 0. done.
    + done.
    + exists 0. rewrite quantum_bytes_length. done.
    + exists 0. rewrite quantum_bytes_length. done.
  - cbn [base64.decode alphabet_length]. rewrite in_alphabet_decodeMap.
    destruct (base64.decodeMap c) as [d|].
    + rewrite length_app. cbn [length].
      destruct (Nat.eqb_spec (length dbuf + 1) 4) as [H4|H4].
      * specialize (IH [] ltac:(simpl; lia)). cbn [length] in IH.
        destruct (base64.decode rest []) as [bs|];
          cbn [fmap option_fmap option_map].
        -- destruct IH as (n & -> & Hn & Hbs). exists (S n).
           cbn [fmap option_fmap option_map]. split; [done|].
           rewrite length_app, quantum_bytes_length, length_app, Hbs.
           cbn [length]. cbn [Nat.add] in Hn. split; div_lia.
        -- destruct (alphabet_length rest) as [n|];
             cbn [fmap option_fmap option_map]; [|done].
           cbn [Nat.add] in IH. div_lia.
      * specialize (IH (dbuf ++ [d])%list).
        rewrite length_app in IH. cbn [length] in IH.
        specialize (IH ltac:(lia)).
        destruct (base64.decode rest (dbuf ++ [d])) as [bs|].
        -- destruct IH as (n & -> & Hn & Hbs). exists (S n).
           cbn [fmap option_fmap option_map].
           replace (length dbuf + S n) with (length dbuf + 1 + n) by lia.
           done.
        -- destruct (alphabet_length rest) as [n|];
             cbn [fmap option_fmap option_map]; [|done].
           replace (length dbuf + S n) with (length dbuf + 1 + n) by lia.
           done.
    + change (Ascii.eqb c "010" || Ascii.eqb c "013") with (is_newline c).
      destruct (is_newline c); [by apply IH | done].
Qed.






(** Sixteen bytes come from twenty-two characters, and from no other
    number of them. *)
Lemma DecodeString_16 s :
  (∃ bs, base64.DecodeString s = Some bs ∧ length bs = 16)
  ↔ alphabet_length s = Some 22.
Proof.
  unfold base64.DecodeString.
  pose proof (decode_spec s [] ltac:(simpl; lia)) as H. cbn [length] in H.
  destruct (base64.decode s []) as [bs|].
  - destruct H as (n & -> & Hn & Hbs). cbn [Nat.add] in Hn, Hbs. split.
    + intros (bs' & [= <-] & H16). f_equal.
      rewrite H16 in Hbs.
      div_lia.
    + intros [= ->]. exists bs. done.
  - split; [by intros (? & ? & _)|].
    intros Hs. rewrite Hs in H. by vm_compute in H.
Qed.

(** ** The header in JSON *)


Lemma escape_safe s : all_chars safe_char s = true → escape s = s.
Proof.
  induction s as [|c rest IH]; [done|]. cbn [all_chars escape].
  unfold safe_char at 1. rewrite !andb_true_iff. intros [[H1 H2] H3].
  rewrite H1, H2, (IH H3). done.
Qed.

Lemma appendString_safe s :
  all_chars safe_char s = true → appendString s = quoted s.
Proof. intros H. unfold appendString. by rewrite (escape_safe s H). Qed.

Lemma hex_encode_safe b : all_chars safe_char (uuid.hex_encode b) = true.
Proof.
  induction b as [|x b IH]; [done|].
  cbn [uuid.hex_encode all_chars]. rewrite IH, !andb_true_r.
  by destruct x; vm_compute.
Qed.

Lemma uuid_String_safe u : all_chars safe_char (uuid.String_ u) = true.
Proof.
  unfold uuid.String_. rewrite !all_chars_app, !hex_encode_safe. done.
Qed.

Lemma encode_header now id :
  encode (JWTHeader_value (buildHeader now id))
  = Some (header_text now (uuid.String_ id)).
Proof.
  unfold JWTHeader_value, buildHeader. cbn [IAT Alg Typ Kid].
  cbn [encode mapM fst snd mbind option_bind fmap option_fmap option_map
       mret option_ret map join String.concat].
  unfold member. cbn [fst snd].
  rewrite (appendString_safe "iat"), (appendString_safe "alg"),
    (appendString_safe "typ"), (appendString_safe "kid"),
    (appendString_safe "HS256"), (appendString_safe "JWT") by done.
  rewrite (appendString_safe _ (uuid_String_safe id)).
  unfold header_text. f_equal.
  repeat rewrite ?string_app_assoc, ?string_app_cons, ?string_app_nil_l.
  done.
Qed.

Lemma Marshal_header now id :
  Marshal (JWTHeader_value (buildHeader now id))
  = Some (bytes (header_text now (uuid.String_ id))).
Proof. unfold Marshal. by rewrite encode_header. Qed.

(** ** The token and its segments *)

Lemma signToken_segments signingKey headerJSON payloadJSON :
  let headerB64 := base64.EncodeToString headerJSON in
  let payloadB64 := base64.EncodeToString payloadJSON in
  let signatureB64 :=
    base64.EncodeToString
      (hmac.Sum signingKey (bytes (headerB64 +:+ "." +:+ payloadB64))) in
  signToken signingKey headerJSON payloadJSON
  = headerB64 +:+ "." +:+ payloadB64 +:+ "." +:+ signatureB64.
Proof. unfold signToken. cbv zeta. by rewrite !string_app_assoc. Qed.

Lemma Split_signToken signingKey headerJSON payloadJSON :
  ∃ signatureB64,
    strings.Split (signToken signingKey headerJSON payloadJSON) "."
    = [base64.EncodeToString headerJSON; base64.EncodeToString payloadJSON;
       signatureB64].
Proof.
  eexists. rewrite signToken_segments. cbv zeta.
  apply (Split_three "."); apply EncodeToString_no_dot.
Qed.

(** ** Seconds since the epoch *)

Lemma wrap64_int64 z : is_int64 z → wrap64 z = z.
Proof.
  unfold is_int64, wrap64. intros H.
  rewrite Z.mod_small by lia. lia.
Qed.

(** ** The payload, key by key *)

Lemma buildPayload_union now order u extra :
  range_order extra order →
  buildPayload now order u extra =
  default ∅ extra ∪ buildPayload now [] u None.
Proof.
  unfold buildPayload, range_order. destruct extra as [m|]; simpl.
  - intros H. by rewrite (range_assign m).
  - intros _. by rewrite (left_id_L ∅ (∪)).
Qed.

Lemma buildPayload_adminScopes now u :
  buildPayload now [] u None !! "adminScopes"
  = (λ l, VStringSlice (Some l)) <$> AdminScopes u.
Proof.
  unfold buildPayload. destruct (AdminScopes u) as [l|]; simpl.
  - by rewrite lookup_insert_eq.
  - by rewrite !lookup_insert_ne, lookup_empty by done.
Qed.

Lemma buildPayload_expires now u :
  buildPayload now [] u None !! "expires" = Some (VInt64 (wrap64 (now + 3600))).
Proof.
  unfold buildPayload. destruct (AdminScopes u) as [l|].
  - rewrite lookup_insert_ne by done. by rewrite lookup_insert_eq.
  - by rewrite lookup_insert_eq.
Qed.

(** ** Outcomes *)

Lemma GenerateJWT_success now order c user extra token :
  GenerateJWT now order c user extra = Return token None ↔
  ∃ id key u payloadJSON,
    parseAPIKey (apiKey c) = inl (id, key) ∧ user = Some u ∧
    Marshal (VMap (Some (buildPayload now order u extra))) = Some payloadJSON ∧
    token = signToken (deriveSigningKey key id)
              (bytes (header_text now (uuid.String_ id))) payloadJSON.
Proof.
  split.
  - destruct (parseAPIKey (apiKey c)) as [[id key]|err] eqn:Hp.
    + rewrite (GenerateJWT_parsed _ _ _ _ _ _ _ Hp), Marshal_header.
      destruct user as [u|]; [|done].
      destruct (Marshal (VMap _)) as [payloadJSON|] eqn:Hm; [|done].
      intros [= <-]. by exists id, key, u, payloadJSON.
    + by rewrite (GenerateJWT_not_parsed _ _ _ _ _ _ Hp).
  - intros (id & key & u & payloadJSON & Hp & -> & Hm & ->).
    by rewrite (GenerateJWT_parsed _ _ _ _ _ _ _ Hp), Marshal_header, Hm.
Qed.


(** The map literal of the payload, whatever the order of its keys. *)
Lemma required_fields (id email : string) (expires : Z) :
  (<["expires" := VInt64 expires]>
     (<["userEmail" := VString email]>
        (<["userId" := VString id]> ∅)) : gmap string value)
  = <["userId" := VString id]>
      (<["userEmail" := VString email]>
         (<["expires" := VInt64 expires]> ∅)).
Proof.
  apply map_eq. intros k. rewrite !lookup_insert.
  repeat case_decide; subst; done.
Qed.

(** A key parses exactly when it has three segments, the prefix VRTX and
    an identifier of twenty-two characters of the alphabet. *)
Lemma parseAPIKey_succeeds apiKey :
  (∃ id key, parseAPIKey apiKey = inl (id, key)) ↔
  ∃ encodedID key,
    strings.Split apiKey "."%char = ["VRTX"; encodedID; key] ∧
    alphabet_length encodedID = Some 22.
Proof.
  split.
  - intros (id & key & Hp).
    apply parseAPIKey_inl in Hp as (encodedID & Hs & Hd & Hl).
    exists encodedID, key. split; [done|]. apply DecodeString_16. eauto.
  - intros (encodedID & key & Hs & Ha).
    apply DecodeString_16 in Ha as (bs & Hd & Hl).
    exists bs, key. apply parseAPIKey_inl. eauto.
Qed.

(* ===================================================================== *)
(** * The properties of the issued token *)
(* ===================================================================== *)

(** C1. For a credential that parses and claims that serialize, the token
    is [headerB64 . payloadB64 . signatureB64]: the unpadded base64url
    encodings of the header JSON and of the payload JSON, and that of the
    HMAC-SHA256, under the derived signing key, of
    [headerB64 . payloadB64]. *)
Theorem GenerateJWT_token_format now order c u extra id key payloadJSON :
  parseAPIKey (apiKey c) = inl (id, key) →
  Marshal (VMap (Some (buildPayload now order u extra))) = Some payloadJSON →
  ∃ headerJSON,
    Marshal (JWTHeader_value (buildHeader now id)) = Some headerJSON ∧
    let headerB64 := base64.EncodeToString headerJSON in
    let payloadB64 := base64.EncodeToString payloadJSON in
    let signatureB64 :=
      base64.EncodeToString
        (hmac.Sum (deriveSigningKey key id)
                  (bytes (headerB64 +:+ "." +:+ payloadB64))) in
    GenerateJWT now order c (Some u) extra
    = Return (headerB64 +:+ "." +:+ payloadB64 +:+ "." +:+ signatureB64) None.
Proof.
  intros Hp Hm. eexists. split; [apply Marshal_header|]. cbv zeta.
  rewrite (GenerateJWT_parsed _ _ _ _ _ _ _ Hp), Marshal_header, Hm.
  by rewrite signToken_segments.
Qed.

Lemma GenerateJWT_token_format_witness :
  parseAPIKey (apiKey test_client) = inl (test_id, "test-key") ∧
  Marshal (VMap (Some (buildPayload 1700000000 [] test_user None)))
  = Some test_payloadJSON ∧
  ∃ headerJSON,
    Marshal (JWTHeader_value (buildHeader 1700000000 test_id))
    = Some headerJSON ∧
    GenerateJWT 1700000000 [] test_client (Some test_user) None
    = Return
        (base64.EncodeToString headerJSON +:+ "." +:+
         base64.EncodeToString test_payloadJSON +:+ "." +:+
         base64.EncodeToString
           (hmac.Sum (deriveSigningKey "test-key" test_id)
              (bytes (base64.EncodeToString headerJSON +:+ "." +:+
                      base64.EncodeToString test_payloadJSON)))) None.
Proof.
  assert (parseAPIKey (apiKey test_client) = inl (test_id, "test-key")) as H1
    by (vm_compute; reflexivity).
  assert (Marshal (VMap (Some (buildPayload 1700000000 [] test_user None)))
          = Some test_payloadJSON) as H2 by (vm_compute; reflexivity).
  split; [exact H1|]. split; [exact H2|].
  exact (GenerateJWT_token_format 1700000000 [] test_client test_user None
           test_id "test-key" test_payloadJSON H1 H2).
Defined.

(** C2. For a credential with segments [prefix], [encodedID], [secret]
    that parses, the key that signs the token is the HMAC-SHA256 digest,
    32 bytes, of the canonical string of the 16 decoded bytes under the
    key [secret]; only these two inputs enter it. *)
Theorem GenerateJWT_signing_key now order c u extra encodedID secret uuidBytes :
  strings.Split (apiKey c) "."%char = ["VRTX"; encodedID; secret] →
  base64.DecodeString encodedID = Some uuidBytes →
  length uuidBytes = 16 →
  let signingKey :=
    hmac.Sum (bytes secret) (bytes (uuid.String_ uuidBytes)) in
  length signingKey = 32 ∧
  GenerateJWT now order c (Some u) extra =
  match Marshal (VMap (Some (buildPayload now order u extra))) with
  | Some payloadJSON =>
      let toSign :=
        base64.EncodeToString
          (bytes (header_text now (uuid.String_ uuidBytes)))
        +:+ "." +:+ base64.EncodeToString payloadJSON in
      Return (toSign +:+ "." +:+
              base64.EncodeToString (hmac.Sum signingKey (bytes toSign))) None
  | None => Return "" (Some ErrMarshalPayload)
  end.
Proof.
  intros Hs Hd Hl. cbv zeta. split; [apply hmac_Sum_length|].
  assert (parseAPIKey (apiKey c) = inl (uuidBytes, secret)) as Hp
    by (apply parseAPIKey_inl; eauto).
  rewrite (GenerateJWT_parsed _ _ _ _ _ _ _ Hp), Marshal_header.
  destruct (Marshal (VMap _)) as [payloadJSON|]; [|done].
  rewrite signToken_segments. cbv zeta. unfold deriveSigningKey.
  by rewrite !string_app_assoc.
Qed.

Lemma GenerateJWT_signing_key_witness :
  strings.Split (apiKey test_client) "."%char
  = ["VRTX"; "EjRWeBI0EjQSNBI0VniQEg"; "test-key"] ∧
  base64.DecodeString "EjRWeBI0EjQSNBI0VniQEg" = Some test_id ∧
  length test_id = 16 ∧
  length (hmac.Sum (bytes "test-key") (bytes (uuid.String_ test_id))) = 32 ∧
  GenerateJWT 1700000000 [] test_client (Some test_user) None =
  match Marshal (VMap (Some (buildPayload 1700000000 [] test_user None))) with
  | Some payloadJSON =>
      let toSign :=
        base64.EncodeToString
          (bytes (header_text 1700000000 (uuid.String_ test_id)))
        +:+ "." +:+ base64.EncodeToString payloadJSON in
      Return (toSign +:+ "." +:+
              base64.EncodeToString
                (hmac.Sum
                   (hmac.Sum (bytes "test-key") (bytes (uuid.String_ test_id)))
                   (bytes toSign))) None
  | None => Return "" (Some ErrMarshalPayload)
  end.
Proof.
  assert (strings.Split (apiKey test_client) "."%char
          = ["VRTX"; "EjRWeBI0EjQSNBI0VniQEg"; "test-key"]) as H1
    by reflexivity.
  assert (base64.DecodeString "EjRWeBI0EjQSNBI0VniQEg" = Some test_id) as H2
    by (vm_compute; reflexivity).
  assert (length test_id = 16) as H3 by reflexivity.
  split; [exact H1|]. split; [exact H2|]. split; [exact H3|].
  exact (GenerateJWT_signing_key 1700000000 [] test_client test_user None
           "EjRWeBI0EjQSNBI0VniQEg" "test-key" test_id H1 H2 H3).
Defined.

(** C3. The payload is the merge of three maps, a later one overriding
    an earlier one on a common key: the required fields with the expiry
    at [now + 3600], then the admin scopes when the list is not nil, then
    the extra map as it is; a reserved key of the extra map keeps the
    extra value. The payload segment of an issued token is the JSON of
    this merge. *)
Theorem buildPayload_merge now order u extra :
  is_int64 now → is_int64 (now + 3600) → range_order extra order →
  let required : gmap string value :=
    list_to_map [("userId", VString (ID u)); ("userEmail", VString (Email u));
                 ("expires", VInt64 (now + 3600))] in
  let scopes : gmap string value :=
    match AdminScopes u with
    | Some l => {["adminScopes" := VStringSlice (Some l)]}
    | None => ∅
    end in
  let extras : gmap string value := default ∅ extra in
  buildPayload now order u extra = extras ∪ (scopes ∪ required) ∧
  (∀ k v, extras !! k = Some v → buildPayload now order u extra !! k = Some v) ∧
  (∀ c token,
     GenerateJWT now order c (Some u) extra = Return token None →
     ∃ h p s, strings.Split token "."%char = [h; p; s] ∧
              base64.DecodeString p
              = Marshal (VMap (Some (extras ∪ (scopes ∪ required))))).
Proof.
  intros Hnow Hexp Hord. cbv zeta.
  assert (buildPayload now order u extra =
          default ∅ extra ∪
          ((match AdminScopes u with
            | Some l => {["adminScopes" := VStringSlice (Some l)]}
            | None => ∅
            end) ∪
           list_to_map [("userId", VString (ID u));
                        ("userEmail", VString (Email u));
                        ("expires", VInt64 (now + 3600)%Z)])) as Heq.
  { rewrite (buildPayload_union _ _ _ _ Hord). f_equal.
    unfold buildPayload. rewrite (wrap64_int64 _ Hexp).
    cbn [list_to_map foldr uncurry curry fst snd].
    rewrite (required_fields (ID u) (Email u) (now + 3600)).
    destruct (AdminScopes u) as [l|].
    - by rewrite insert_union_singleton_l.
    - by rewrite (left_id_L ∅ (∪)). }
  split; [exact Heq|]. split.
  - intros k v Hk. rewrite Heq. by apply lookup_union_Some_l.
  - intros c token Htok.
    apply GenerateJWT_success in Htok
      as (id & key & u' & payloadJSON & Hp & [= <-] & Hm & ->).
    destruct (Split_signToken (deriveSigningKey key id)
                (bytes (header_text now (uuid.String_ id))) payloadJSON)
      as [s Hs].
    eexists _, _, s. split; [exact Hs|].
    by rewrite DecodeString_EncodeToString, <- Hm, Heq.
Qed.

Lemma buildPayload_merge_witness :
  is_int64 1700000000 ∧ is_int64 (1700000000 + 3600) ∧
  range_order (Some override_extra) (map_to_list override_extra) ∧
  buildPayload 1700000000 (map_to_list override_extra) test_user
    (Some override_extra)
  = override_extra ∪
    ({["adminScopes" := VStringSlice (Some ["autoJoin"])]} ∪
     list_to_map [("userId", VString "user-123");
                  ("userEmail", VString "test@example.com");
                  ("expires", VInt64 (1700000000 + 3600)%Z)]) ∧
  buildPayload 1700000000 (map_to_list override_extra) test_user
    (Some override_extra) !! "expires" = Some (VInt64 0).
Proof.
  assert (is_int64 1700000000) as H1 by (unfold is_int64; lia).
  assert (is_int64 (1700000000 + 3600)) as H2 by (unfold is_int64; lia).
  assert (range_order (Some override_extra) (map_to_list override_extra))
    as H3 by apply Permutation_refl.
  split; [exact H1|]. split; [exact H2|]. split; [exact H3|].
  pose proof (buildPayload_merge 1700000000 (map_to_list override_extra)
                test_user (Some override_extra) H1 H2 H3) as (Hm & Hk & _).
  split; [exact Hm|]. apply Hk. reflexivity.
Defined.

(** C4. In an issued token the field [expires] of the payload is the
    field [iat] of the header plus 3600, whatever the credential, the
    user and the extra map, as long as the extra map has no key
    [expires]; header and payload are the ones the token carries. *)
Theorem GenerateJWT_expires now order c user extra token :
  is_int64 now → is_int64 (now + 3600) → range_order extra order →
  default ∅ extra !! "expires" = None →
  GenerateJWT now order c user extra = Return token None →
  ∃ id u,
    user = Some u ∧
    let header := buildHeader now id in
    let payload := buildPayload now order u extra in
    IAT header = now ∧
    payload !! "expires" = Some (VInt64 (IAT header + 3600)) ∧
    ∃ h p s,
      strings.Split token "."%char = [h; p; s] ∧
      base64.DecodeString h = Marshal (JWTHeader_value header) ∧
      base64.DecodeString p = Marshal (VMap (Some payload)).
Proof.
  intros Hnow Hexp Hord Hextra Htok.
  apply GenerateJWT_success in Htok
    as (id & key & u & payloadJSON & Hp & -> & Hm & ->).
  exists id, u. split; [done|]. cbv zeta. split; [done|]. split.
  - rewrite (buildPayload_union _ _ _ _ Hord).
    rewrite lookup_union_r by done.
    rewrite buildPayload_expires. cbn [IAT buildHeader].
    by rewrite (wrap64_int64 _ Hexp).
  - destruct (Split_signToken (deriveSigningKey key id)
                (bytes (header_text now (uuid.String_ id))) payloadJSON)
      as [s Hs].
    eexists _, _, s. split; [exact Hs|].
    by rewrite !DecodeString_EncodeToString, Marshal_header, Hm.
Qed.

Lemma GenerateJWT_expires_witness :
  is_int64 1700000000 ∧ is_int64 (1700000000 + 3600) ∧
  GenerateJWT 1700000000 [] test_client (Some test_user) None
  = Return test_token None ∧
  ∃ id u,
    Some test_user = Some u ∧
    IAT (buildHeader 1700000000 id) = 1700000000%Z ∧
    buildPayload 1700000000 [] u None !! "expires"
    = Some (VInt64 (IAT (buildHeader 1700000000 id) + 3600)) ∧
    ∃ h p s,
      strings.Split test_token "."%char = [h; p; s] ∧
      base64.DecodeString h
      = Marshal (JWTHeader_value (buildHeader 1700000000 id)) ∧
      base64.DecodeString p
      = Marshal (VMap (Some (buildPayload 1700000000 [] u None))).
Proof.
  assert (is_int64 1700000000) as H1 by (unfold is_int64; lia).
  assert (is_int64 (1700000000 + 3600)) as H2 by (unfold is_int64; lia).
  assert (GenerateJWT 1700000000 [] test_client (Some test_user) None
          = Return test_token None) as H3 by (vm_compute; reflexivity).
  split; [exact H1|]. split; [exact H2|]. split; [exact H3|].
  exact (GenerateJWT_expires 1700000000 [] test_client (Some test_user) None
           test_token H1 H2 I eq_refl H3).
Defined.




(** C6. The header segment of an issued token decodes to a JSON object
    with the four keys [iat], [alg], [typ] and [kid]: the clock value,
    the constants HS256 and JWT, and the canonical string of the 16
    bytes decoded from the credential, which is also the message of the
    key derivation. *)
Theorem GenerateJWT_header now order c user extra token :
  GenerateJWT now order c user extra = Return token None →
  ∃ encodedID secret uuidBytes h p s,
    strings.Split (apiKey c) "."%char = ["VRTX"; encodedID; secret] ∧
    base64.DecodeString encodedID = Some uuidBytes ∧
    length uuidBytes = 16 ∧
    strings.Split token "."%char = [h; p; s] ∧
    base64.DecodeString h
    = Some (bytes
        ("{" +:+ quoted "iat" +:+ ":" +:+ FormatInt now +:+ "," +:+
         quoted "alg" +:+ ":" +:+ quoted "HS256" +:+ "," +:+
         quoted "typ" +:+ ":" +:+ quoted "JWT" +:+ "," +:+
         quoted "kid" +:+ ":" +:+ quoted (uuid.String_ uuidBytes) +:+ "}")) ∧
    deriveSigningKey secret uuidBytes
    = hmac.Sum (bytes secret) (bytes (uuid.String_ uuidBytes)).
Proof.
  intros Htok.
  apply GenerateJWT_success in Htok
    as (id & key & u & payloadJSON & Hp & -> & Hm & ->).
  apply parseAPIKey_inl in Hp as (encodedID & Hs & Hd & Hl).
  destruct (Split_signToken (deriveSigningKey key id)
              (bytes (header_text now (uuid.String_ id))) payloadJSON)
    as [s Hsplit].
  exists encodedID, key, id. eexists _, _, s.
  split; [exact Hs|]. split; [exact Hd|]. split; [exact Hl|].
  split; [exact Hsplit|]. split; [|done].
  by rewrite DecodeString_EncodeToString.
Qed.

Lemma GenerateJWT_header_witness :
  GenerateJWT 1700000000 [] test_client (Some test_user) None
  = Return test_token None ∧
  ∃ encodedID secret uuidBytes h p s,
    strings.Split (apiKey test_client) "."%char = ["VRTX"; encodedID; secret] ∧
    base64.DecodeString encodedID = Some uuidBytes ∧
    length uuidBytes = 16 ∧
    strings.Split test_token "."%char = [h; p; s] ∧
    base64.DecodeString h
    = Some (bytes
        ("{" +:+ quoted "iat" +:+ ":" +:+ FormatInt 1700000000 +:+ "," +:+
         quoted "alg" +:+ ":" +:+ quoted "HS256" +:+ "," +:+
         quoted "typ" +:+ ":" +:+ quoted "JWT" +:+ "," +:+
         quoted "kid" +:+ ":" +:+ quoted (uuid.String_ uuidBytes) +:+ "}")) ∧
    deriveSigningKey secret uuidBytes
    = hmac.Sum (bytes secret) (bytes (uuid.String_ uuidBytes)).
Proof.
  assert (GenerateJWT 1700000000 [] test_client (Some test_user) None
          = Return test_token None) as H by (vm_compute; reflexivity).
  split; [exact H|].
  exact (GenerateJWT_header 1700000000 [] test_client (Some test_user) None
           test_token H).
Defined.

(** C7, as the code has it. The key [adminScopes] is left out when the
    list of the user is nil, and only then: a list that is not nil, empty
    or not, is written under [adminScopes] as it is. This is for an
    extra map without the key [adminScopes]. *)
Theorem buildPayload_adminScopes_key now order u extra :
  range_order extra order →
  default ∅ extra !! "adminScopes" = None →
  buildPayload now order u extra !! "adminScopes"
  = (λ scopes, VStringSlice (Some scopes)) <$> AdminScopes u.
Proof.
  intros Hord Hextra. rewrite (buildPayload_union _ _ _ _ Hord).
  rewrite lookup_union_r by done. apply buildPayload_adminScopes.
Qed.

Lemma buildPayload_adminScopes_key_witness :
  range_order (Some test_extra) (map_to_list test_extra) ∧
  test_extra !! "adminScopes" = None ∧
  buildPayload 1700000000 (map_to_list test_extra) user_nil_scopes
    (Some test_extra) !! "adminScopes" = None ∧
  buildPayload 1700000000 (map_to_list test_extra) user_empty_scopes
    (Some test_extra) !! "adminScopes" = Some (VStringSlice (Some [])).
Proof.
  assert (range_order (Some test_extra) (map_to_list test_extra)) as H1
    by apply Permutation_refl.
  assert (test_extra !! "adminScopes" = None) as H2 by reflexivity.
  split; [exact H1|]. split; [exact H2|]. split.
  - exact (buildPayload_adminScopes_key 1700000000 (map_to_list test_extra)
             user_nil_scopes (Some test_extra) H1 H2).
  - exact (buildPayload_adminScopes_key 1700000000 (map_to_list test_extra)
             user_empty_scopes (Some test_extra) H1 H2).
Defined.

(** C7, as the specification has it, fails: for a user whose list of
    admin scopes is empty and not nil the payload has the key
    [adminScopes], with an empty array. *)
Lemma empty_adminScopes_written :
  AdminScopes user_empty_scopes = Some [] ∧
  buildPayload 1700000000 [] user_empty_scopes None !! "adminScopes"
  = Some (VStringSlice (Some [])) ∧
  ∃ token h p s,
    GenerateJWT 1700000000 [] test_client (Some user_empty_scopes) None
    = Return token None ∧
    strings.Split token "."%char = [h; p; s] ∧
    base64.DecodeString p
    = Some (bytes ("{" +:+ quoted "adminScopes" +:+ ":[]," +:+
                   quoted "expires" +:+ ":1700003600," +:+
                   quoted "userEmail" +:+ ":" +:+ quoted "test@example.com"
                   +:+ "," +:+
                   quoted "userId" +:+ ":" +:+ quoted "user-123" +:+ "}")).
Proof.
  split; [reflexivity|]. split; [by vm_compute|].
  eexists _, _, _, _.
  split; [vm_compute; reflexivity|].
  split; vm_compute; reflexivity.
Qed.

(** C8. With the same credential, user, extra map and clock value, two
    calls return the same outcome, and so the same token, whatever the
    orders in which the two range loops visit the extra map. *)
Theorem GenerateJWT_deterministic now c user extra order1 order2 :
  range_order extra order1 → range_order extra order2 →
  GenerateJWT now order1 c user extra = GenerateJWT now order2 c user extra.
Proof.
  intros H1 H2. unfold GenerateJWT.
  destruct (parseAPIKey (apiKey c)) as [[id key]|err]; [|done].
  destruct user as [u|]; [|done].
  by rewrite (buildPayload_order now order1 order2 u extra H1 H2).
Qed.

Lemma GenerateJWT_deterministic_witness :
  range_order (Some test_extra) (map_to_list test_extra) ∧
  range_order (Some test_extra) (reverse (map_to_list test_extra)) ∧
  reverse (map_to_list test_extra) ≠ map_to_list test_extra ∧
  GenerateJWT 1700000000 (map_to_list test_extra) test_client
    (Some test_user) (Some test_extra)
  = GenerateJWT 1700000000 (reverse (map_to_list test_extra)) test_client
      (Some test_user) (Some test_extra).
Proof.
  assert (range_order (Some test_extra) (map_to_list test_extra)) as H1
    by apply Permutation_refl.
  assert (range_order (Some test_extra) (reverse (map_to_list test_extra)))
    as H2 by apply reverse_Permutation.
  split; [exact H1|]. split; [exact H2|]. split; [by vm_compute|].
  exact (GenerateJWT_deterministic 1700000000 test_client (Some test_user)
           (Some test_extra) _ _ H1 H2).
Defined.

(** C9. An error comes with the empty string, whatever the stage that
    fails: no part of a token is returned with an error. *)
Theorem GenerateJWT_error_empty now order c user extra jwt err :
  GenerateJWT now order c user extra = Return jwt (Some err) → jwt = "".
Proof.
  unfold GenerateJWT.
  destruct (parseAPIKey (apiKey c)) as [[id key]|e]; [|by intros [= <- _]].
  destruct user as [u|]; [|done].
  destruct (Marshal (JWTHeader_value _)); [|by intros [= <- _]].
  destruct (Marshal (VMap _)); [done | by intros [= <- _]].
Qed.

Lemma GenerateJWT_error_empty_witness :
  GenerateJWT 1700000000 [("callback", VUnsupported)] test_client
    (Some test_user) (Some {["callback" := VUnsupported]})
  = Return "" (Some ErrMarshalPayload) ∧ "" = "".
Proof.
  assert (GenerateJWT 1700000000 [("callback", VUnsupported)] test_client
            (Some test_user) (Some {["callback" := VUnsupported]})
          = Return "" (Some ErrMarshalPayload)) as H
    by (vm_compute; reflexivity).
  split; [exact H|].
  exact (GenerateJWT_error_empty 1700000000 [("callback", VUnsupported)]
           test_client (Some test_user)
           (Some {["callback" := VUnsupported]}) "" ErrMarshalPayload H).
Defined.

(** C10. A call panics exactly when the receiver is nil, or the user
    is nil and the credential parses: with a nil user and a well-formed
    credential no error value is returned, and with a receiver and a
    user that are not nil nothing panics. *)
Theorem GenerateJWT_panic now order c user extra :
  (Client_GenerateJWT now order c user extra = Panic ↔
   c = None ∨
   (user = None ∧
    ∃ c' id key, c = Some c' ∧ parseAPIKey (apiKey c') = inl (id, key))) ∧
  (∀ c' id key,
     c = Some c' → parseAPIKey (apiKey c') = inl (id, key) → user = None →
     Client_GenerateJWT now order c user extra = Panic ∧
     failure (Client_GenerateJWT now order c user extra) = None) ∧
  (c ≠ None → user ≠ None →
   Client_GenerateJWT now order c user extra ≠ Panic).
Proof.
  assert (∀ c', GenerateJWT now order c' user extra = Panic ↔
                user = None ∧ ∃ id key, parseAPIKey (apiKey c') = inl (id, key))
    as Hpanic.
  { intros c'. unfold GenerateJWT.
    destruct (parseAPIKey (apiKey c')) as [[id key]|e].
    - destruct user as [u|].
      + split; [|by intros [? _]].
        destruct (Marshal (JWTHeader_value _)); [|done].
        by destruct (Marshal (VMap _)).
      + split; [eauto | done].
    - split; [done | by intros (_ & ? & ? & ?)]. }
  split; [|split].
  - destruct c as [c'|]; cbn [Client_GenerateJWT].
    + rewrite Hpanic. split.
      * intros (Hu & id & key & Hp). right. split; [done|]. by exists c', id, key.
      * intros [?|(Hu & c'' & id & key & [= <-] & Hp)]; [done|]. eauto.
    + split; [by left | done].
  - intros c' id key -> Hp Hu. cbn [Client_GenerateJWT].
    assert (GenerateJWT now order c' user extra = Panic) as ->
      by (apply Hpanic; eauto).
    done.
  - intros Hc Hu. destruct c as [c'|]; [|done]. cbn [Client_GenerateJWT].
    rewrite Hpanic. by intros [? _].
Qed.

Lemma GenerateJWT_panic_witness :
  Client_GenerateJWT 1700000000 [] (Some test_client) None None = Panic ∧
  failure (Client_GenerateJWT 1700000000 [] (Some test_client) None None)
  = None ∧
  Client_GenerateJWT 1700000000 [] (Some test_client) (Some test_user) None
  ≠ Panic.
Proof.
  pose proof (GenerateJWT_panic 1700000000 [] (Some test_client) None None)
    as (_ & Hnil & _).
  pose proof (GenerateJWT_panic 1700000000 [] (Some test_client)
                (Some test_user) None) as (_ & _ & Hsome).
  split; [|split].
  - refine (proj1 (Hnil test_client _ _ eq_refl _ eq_refl)).
    vm_compute. reflexivity.
  - refine (proj2 (Hnil test_client _ _ eq_refl _ eq_refl)).
    vm_compute. reflexivity.
  - apply Hsome; discriminate.
Defined.

(** C10, as the specification has it, fails: with a nil receiver the
    call panics although the user is not nil. *)
Lemma nil_receiver_panics :
  Some test_user ≠ None ∧
  Client_GenerateJWT 1700000000 [] None (Some test_user) None = Panic.
Proof. split; [discriminate | reflexivity]. Qed.

Local Close Scope Z_scope.

(* ===================================================================== *)
(** * [splitJWT] *)
(* ===================================================================== *)

Lemma ascii_to_Z_inj c1 c2 : ascii_to_Z c1 = ascii_to_Z c2 → c1 = c2.
Proof.
  unfold ascii_to_Z. intros H. apply N2Z.inj in H.
  rewrite <- (ascii_N_embedding c1), <- (ascii_N_embedding c2). by rewrite H.
Qed.

Lemma Z_to_ascii_to_Z c : Z_to_ascii (ascii_to_Z c) = c.
Proof.
  unfold Z_to_ascii, ascii_to_Z. pose proof (N_ascii_bounded c).
  rewrite Z.mod_small by lia. by rewrite N2Z.id, ascii_N_embedding.
Qed.

Lemma encode_rune_ascii c :
  ascii_char c = true → utf8.encode_rune (ascii_to_Z c) = String c "".
Proof.
  unfold ascii_char, utf8.encode_rune. intros H. rewrite H.
  assert ((0 <=? ascii_to_Z c)%Z = true) as ->
    by (apply Z.leb_le; unfold ascii_to_Z; lia).
  cbn [andb]. by rewrite Z_to_ascii_to_Z.
Qed.

Lemma split_at_nonempty sep s cur : strings.split_at sep cur s ≠ [].
Proof.
  revert cur. induction s as [|c s IH]; intros cur; simpl; [done|].
  destruct (Ascii.eqb c sep); [done | apply IH].
Qed.

Lemma trim_last_cons x l : l ≠ [] → trim_last (x :: l) = x :: trim_last l.
Proof. by destruct l. Qed.

(** The loop of [splitJWT] on bytes below [utf8.RuneSelf], against
    [strings.Split]. *)
Lemma splitJWT_loop_ascii s :
  all_chars ascii_char s = true →
  ∀ parts cur,
    (let '(parts', current) :=
       fold_left splitJWT_step (utf8.runes s) (parts, cur) in
     if negb (String.eqb current "") then parts' ++ [current] else parts')%list
    = (parts ++ trim_last (strings.split_at "." cur s))%list.
Proof.
  induction s as [|c s IH]; intros Hs parts cur.
  - cbn [utf8.runes fold_left strings.split_at trim_last].
    destruct (String.eqb cur ""); cbn [negb]; [|done].
    by rewrite app_nil_r.
  - cbn [all_chars] in Hs. apply andb_true_iff in Hs as [Hc Hs].
    cbn [utf8.runes strings.split_at]. unfold ascii_char in Hc.
    rewrite Hc. cbn [fold_left]. unfold splitJWT_step at 2. cbn [fst snd].
    destruct (Ascii.eqb_spec c ".") as [->|Hne].
    + change (ascii_to_Z "." =? 46)%Z with true. cbv iota.
      rewrite (IH Hs), trim_last_cons by apply split_at_nonempty.
      by rewrite <- app_assoc.
    + destruct (Z.eqb_spec (ascii_to_Z c) 46) as [Heq|_].
      { destruct Hne. by apply ascii_to_Z_inj. }
      rewrite encode_rune_ascii by done. apply (IH Hs).
Qed.

Lemma alphabet_ascii c : in_alphabet c = true → ascii_char c = true.
Proof. destruct c as [[] [] [] [] [] [] [] []]; vm_compute; done. Qed.

Lemma EncodeToString_ascii src :
  all_chars ascii_char (base64.EncodeToString src) = true.
Proof.
  eapply all_chars_impl; [apply alphabet_ascii|].
  apply EncodeToString_alphabet.
Qed.

Lemma EncodeToString_nonempty src :
  src ≠ [] → base64.EncodeToString src ≠ "".
Proof. by destruct src as [|a [|b [|c l]]]. Qed.

Lemma strip_dot_no_dot s :
  all_chars (not_sep ".") s = true → strip_dot s = s.
Proof.
  induction s as [|c s IH]; [done|]. cbn [all_chars]. intros H.
  apply andb_true_iff in H as [Hc Hs]. unfold not_sep in Hc.
  destruct s as [|c' s].
  - cbn [strip_dot]. by destruct (Ascii.eqb c ".").
  - change (strip_dot (String c (String c' s)))
      with (String c (strip_dot (String c' s))). by rewrite (IH Hs).
Qed.

Lemma strip_dot_cons c s : s ≠ "" → strip_dot (String c s) = String c (strip_dot s).
Proof. by destruct s. Qed.

Lemma strip_dot_app_dot s : strip_dot (s +:+ ".") = s.
Proof.
  induction s as [|c s IH]; [done|]. rewrite string_app_cons.
  rewrite strip_dot_cons by (by destruct s). by rewrite IH.
Qed.

Lemma strip_dot_app a b : b ≠ "" → strip_dot (a +:+ b) = a +:+ strip_dot b.
Proof.
  intros Hb. induction a as [|c a IH]; [done|]. rewrite !string_app_cons.
  rewrite strip_dot_cons by (by destruct a, b). by rewrite IH.
Qed.

Lemma concat_cons sep x l :
  l ≠ [] → String.concat sep (x :: l) = x +:+ sep +:+ String.concat sep l.
Proof. by destruct l. Qed.

(** Joining what [strings.Split] cut gives the text back. *)
Lemma concat_split_at sep s :
  ∀ cur, String.concat (String sep "") (strings.split_at sep cur s) = cur +:+ s.
Proof.
  induction s as [|c s IH]; intros cur; simpl.
  - by rewrite string_app_nil_r.
  - destruct (Ascii.eqb_spec c sep) as [->|Hne].
    + rewrite concat_cons by apply split_at_nonempty. by rewrite IH.
    + by rewrite IH, string_app_assoc.
Qed.

Lemma split_at_no_sep_segments sep s :
  ∀ cur, all_chars (not_sep sep) cur = true →
    Forall (λ x, all_chars (not_sep sep) x = true) (strings.split_at sep cur s).
Proof.
  induction s as [|c s IH]; intros cur Hcur; simpl.
  - by constructor.
  - destruct (Ascii.eqb c sep) eqn:Hc.
    + constructor; [done|]. by apply IH.
    + apply IH. rewrite all_chars_app, Hcur. simpl.
      unfold not_sep. by rewrite Hc.
Qed.

Lemma concat_trim_last l :
  Forall (λ x, all_chars (not_sep ".") x = true) l →
  String.concat "." (trim_last l) = strip_dot (String.concat "." l).
Proof.
  induction l as [|x l IH]; [done|]. intros Hl.
  apply Forall_cons in Hl as [Hx Hl]. destruct l as [|y l].
  - cbn [trim_last String.concat].
    destruct (String.eqb_spec x "") as [->|Hne]; [done|].
    by rewrite strip_dot_no_dot.
  - rewrite trim_last_cons by done. rewrite (concat_cons _ x (y :: l)) by done.
    destruct (trim_last (y :: l)) as [|z zs] eqn:Ht.
    + assert (y = "" ∧ l = []) as [-> ->].
      { destruct l as [|y' l]; [|by destruct l].
        cbn [trim_last] in Ht. by destruct (String.eqb_spec y ""). }
      cbn [String.concat]. change ("." +:+ "") with ".".
      by rewrite strip_dot_app_dot.
    + rewrite concat_cons by done. rewrite (IH Hl).
      rewrite <- !string_app_assoc. rewrite strip_dot_app; [done|].
      intros Hc. destruct l as [|y' l].
      * cbn [String.concat] in Hc. subst y. by cbn in Ht.
      * rewrite concat_cons in Hc by done. by destruct y.
Qed.

(* ===================================================================== *)
(** * Further properties: the helper [splitJWT] *)
(* ===================================================================== *)

(** X1. On a text of bytes below 128, [splitJWT] returns what
    [strings.Split] returns for the separator [.], without the last
    segment when that is empty. *)
Theorem splitJWT_ascii s :
  all_chars ascii_char s = true →
  splitJWT s = trim_last (strings.Split s "."%char).
Proof.
  intros Hs. unfold splitJWT, strings.Split.
  pose proof (splitJWT_loop_ascii s Hs [] "") as H.
  by destruct (fold_left _ _ _).
Qed.

Lemma splitJWT_ascii_witness :
  all_chars ascii_char "a.b." = true ∧
  splitJWT "a.b." = trim_last (strings.Split "a.b." "."%char) ∧
  trim_last (strings.Split "a.b." "."%char) = ["a"; "b"].
Proof.
  assert (all_chars ascii_char "a.b." = true) as H by reflexivity.
  split; [exact H|]. split; [exact (splitJWT_ascii "a.b." H) | reflexivity].
Defined.

(** X2. Joining the parts of [splitJWT] with dots gives the text back,
    but for one dot at its end. *)
Theorem splitJWT_join s :
  all_chars ascii_char s = true →
  String.concat "." (splitJWT s) = strip_dot s.
Proof.
  intros Hs.
  assert (splitJWT s = trim_last (strings.Split s "."%char)) as ->.
  { unfold splitJWT, strings.Split.
    pose proof (splitJWT_loop_ascii s Hs [] "") as H.
    by destruct (fold_left _ _ _). }
  unfold strings.Split.
  rewrite concat_trim_last by (by apply split_at_no_sep_segments).
  by rewrite (concat_split_at "."%char s "").
Qed.

Lemma splitJWT_join_witness :
  all_chars ascii_char "a..b." = true ∧
  String.concat "." (splitJWT "a..b.") = "a..b".
Proof.
  assert (all_chars ascii_char "a..b." = true) as H by reflexivity.
  split; [exact H|]. exact (splitJWT_join "a..b." H).
Defined.

(** X3. [splitJWT] cuts every token that [GenerateJWT] issues in exactly
    three parts, the ones of [strings.Split], and the token is not
    empty: the check of [TestGenerateJWT] holds for every credential,
    user, extra map and clock. *)
Theorem splitJWT_GenerateJWT now order c user extra token :
  GenerateJWT now order c user extra = Return token None →
  token ≠ "" ∧ length (splitJWT token) = 3 ∧
  splitJWT token = strings.Split token "."%char.
Proof.
  intros Htok.
  apply GenerateJWT_success in Htok
    as (id & key & u & payloadJSON & Hp & -> & Hm & ->).
  rewrite signToken_segments. cbv zeta.
  set (h := base64.EncodeToString (bytes (header_text now (uuid.String_ id)))).
  set (p := base64.EncodeToString payloadJSON).
  set (sg := base64.EncodeToString _).
  assert (sg ≠ "") as Hsg.
  { apply EncodeToString_nonempty. intros Hnil.
    pose proof (hmac_Sum_length (deriveSigningKey key id)
                  (bytes (h +:+ "." +:+ p))) as Hl.
    by rewrite Hnil in Hl. }
  assert (strings.Split (h +:+ "." +:+ p +:+ "." +:+ sg) "." = [h; p; sg])
    as Hsplit by (apply (Split_three "."); apply EncodeToString_no_dot).
  assert (all_chars ascii_char (h +:+ "." +:+ p +:+ "." +:+ sg) = true)
    as Hascii.
  { rewrite !all_chars_app. cbn [all_chars]. subst h p sg.
    by rewrite !EncodeToString_ascii. }
  assert (splitJWT (h +:+ "." +:+ p +:+ "." +:+ sg)
          = trim_last (strings.Split (h +:+ "." +:+ p +:+ "." +:+ sg) "."))
    as ->.
  { unfold splitJWT, strings.Split.
    pose proof (splitJWT_loop_ascii _ Hascii [] "") as H.
    by destruct (fold_left _ _ _). }
  rewrite Hsplit. split.
  - intros He. apply (f_equal (λ s, strings.Split s "."%char)) in He.
    by rewrite Hsplit in He.
  - cbn [trim_last length]. by destruct (String.eqb_spec sg "").
Qed.

Lemma splitJWT_GenerateJWT_witness :
  GenerateJWT 1700000000 [] test_client (Some test_user) None
  = Return test_token None ∧
  test_token ≠ "" ∧ length (splitJWT test_token) = 3 ∧
  splitJWT test_token = strings.Split test_token "."%char.
Proof.
  assert (GenerateJWT 1700000000 [] test_client (Some test_user) None
          = Return test_token None) as H by (vm_compute; reflexivity).
  split; [exact H|].
  exact (splitJWT_GenerateJWT 1700000000 [] test_client (Some test_user) None
           test_token H).
Defined.

(* ===================================================================== *)
(** * The calls of the API *)
(* ===================================================================== *)

(** ** Query parameters *)

(** The values of a key after the loop over distinct parameters. *)
Lemma fold_add_param_lookup (order : list (string * string)) :
  NoDup order.*1 →
  ∀ (q : url.Values) k,
    fold_left add_param order q !! k =
    match (list_to_map order : gmap string string) !! k with
    | Some v => Some (default [] (q !! k) ++ [v])%list
    | None => q !! k
    end.
Proof.
  induction order as [|[k0 v0] order IH]; intros Hnd q k.
  - simpl. by rewrite lookup_empty.
  - rewrite fmap_cons in Hnd. apply NoDup_cons in Hnd as [Hk0 Hnd].
    cbn [fold_left list_to_map foldr uncurry curry].
    rewrite (IH Hnd). unfold add_param, url.Add, url.Values in *.
    cbn [fst snd].
    destruct (decide (k = k0)) as [->|Hne].
    + rewrite (not_elem_of_list_to_map_1 order k0) by done.
      by rewrite !lookup_insert_eq.
    + by rewrite !(lookup_insert_ne _ k0 k) by done.
Qed.

Lemma range_add_param (m : gmap string string) order1 order2 (q : url.Values) :
  order1 ≡ₚ map_to_list m → order2 ≡ₚ map_to_list m →
  fold_left add_param order1 q = fold_left add_param order2 q.
Proof.
  intros H1 H2. apply map_eq. intros k.
  assert (∀ order, order ≡ₚ map_to_list m →
            NoDup order.*1 ∧ (list_to_map order : gmap string string) = m)
    as Hm.
  { intros order Ho. split.
    - rewrite Ho. apply NoDup_fst_map_to_list.
    - transitivity (list_to_map (map_to_list m) : gmap string string);
        [|apply list_to_map_to_list].
      apply list_to_map_proper; [|done].
      rewrite Ho. apply NoDup_fst_map_to_list. }
  destruct (Hm _ H1) as [Hn1 He1], (Hm _ H2) as [Hn2 He2].
  by rewrite !fold_add_param_lookup, He1, He2.
Qed.

(** What [url.QueryEscape] writes: letters, digits, the four marks, [%]
    and [+]. *)
Lemma QueryEscape_alphabet s : all_chars query_char (url.QueryEscape s) = true.
Proof.
  induction s as [|c s IH]; [done|]. cbn [url.QueryEscape].
  destruct (Ascii.eqb c " ") eqn:Hsp; [by cbn [all_chars]; rewrite IH|].
  destruct (url.shouldEscape c) eqn:Hesc; cbn [all_chars]; rewrite IH.
  - rewrite andb_true_r. clear.
    destruct c as [[] [] [] [] [] [] [] []]; vm_compute; reflexivity.
  - rewrite andb_true_r. unfold query_char. by rewrite Hesc.
Qed.

Section api_facts.
Context `{NetLib}.

(** ** The two parts of [apiRequest] *)

Lemma handleResponse_shape answer :
  (snd (handleResponse answer) = None ↔ fst (handleResponse answer) ≠ None) ∧
  (∀ bs, fst (handleResponse answer) = Some bs → bs ≠ []).
Proof.
  unfold handleResponse. destruct answer as [resp|]; [|by split].
  destruct (http.RespBody resp) as [body|]; [|by split].
  destruct (400 <=? http.StatusCode resp)%Z; [by split|].
  destruct (Nat.eqb_spec (length body) 0) as [H0|H0]; cbn [orb].
  - by split; [|intros bs [= <-]].
  - destruct (String.eqb _ ""); cbn [fst snd].
    + by split; [|intros bs [= <-]].
    + split; [done|]. intros bs [= <-]. by destruct body.
Qed.

Lemma string_of_list_byte_nil b : String.string_of_list_byte b = "" ↔ b = [].
Proof. by destruct b. Qed.

Lemma prepareRequest_error order c method path body queryParams err :
  prepareRequest order c method path body queryParams = inr err →
  err = ErrParseURL ∨ err = ErrMarshalRequestBody ∨ err = ErrCreateRequest.
Proof.
  unfold prepareRequest.
  destruct (requestURL _ _ _ _); [|intros [= <-]; auto].
  destruct (match body with Some b => _ | None => _ end);
    [|intros [= <-]; auto].
  destruct (NewRequest _ _ _); [done | intros [= <-]; auto].
Qed.

(** X4. The two constructors agree: [NewClient] is
    [NewClientWithOptions] with the value of the environment variable as
    base URL and no HTTP client. A client from either of them keeps the
    API key, never has an empty base URL, and issues tokens that depend
    on the API key alone. *)
Theorem constructors_agree env apiKey baseURL httpClient :
  NewClient env apiKey = NewClientWithOptions apiKey env None ∧
  vortex.apiKey (client (NewClientWithOptions apiKey baseURL httpClient))
  = apiKey ∧
  vortex.baseURL (client (NewClientWithOptions apiKey baseURL httpClient))
  ≠ "" ∧
  ∀ now order user extra,
    GenerateJWT now order
      (client (NewClientWithOptions apiKey baseURL httpClient)) user extra
    = GenerateJWT now order (client (NewClient env apiKey)) user extra.
Proof.
  split; [done|]. split; [done|]. split; [|done].
  unfold NewClientWithOptions. cbn [client vortex.baseURL].
  by destruct (String.eqb_spec baseURL "").
Qed.

(** X5. [apiRequest] returns bytes or an error, never both and never
    neither; the bytes of a success are never empty. *)
Theorem apiRequest_result order c method path body queryParams :
  let r := apiRequest order c method path body queryParams in
  (snd r = None ↔ fst r ≠ None) ∧ (∀ bs, fst r = Some bs → bs ≠ []).
Proof.
  cbv zeta. unfold apiRequest.
  destruct (prepareRequest _ _ _ _ _ _) as [req|err]; [|by split].
  apply handleResponse_shape.
Qed.

(** X6. [apiRequest] returns an [*APIError] exactly when a request was
    sent, its answer was read, and the status code is 400 or more; the
    error has this status code, the body as details, and a message made
    of the status code and the status line. *)
Theorem apiRequest_APIError order c method path body queryParams bs e :
  apiRequest order c method path body queryParams = (bs, Some (ErrAPI e)) ↔
  bs = None ∧
  ∃ req resp responseBody,
    prepareRequest order c method path body queryParams = inl req ∧
    http_Do (httpClient c) req = Some resp ∧
    http.RespBody resp = Some responseBody ∧
    (400 ≤ http.StatusCode resp)%Z ∧
    e = {| ErrStatusCode := http.StatusCode resp;
           Message := "Vortex API request failed: " +:+
                      FormatInt (http.StatusCode resp) +:+ " " +:+
                      http.Status resp;
           Details := String.string_of_list_byte responseBody |}.
Proof.
  unfold apiRequest.
  destruct (prepareRequest _ _ _ _ _ _) as [req|err] eqn:Hprep.
  - unfold handleResponse.
    destruct (http_Do (httpClient c) req) as [resp|] eqn:HDo.
    + destruct (http.RespBody resp) as [rb|] eqn:Hrb.
      * destruct (Z.leb_spec 400 (http.StatusCode resp)) as [Hge|Hlt].
        -- split.
           ++ intros [= <- <-]. split; [done|]. by exists req, resp, rb.
           ++ intros (-> & req' & resp' & rb' & [= <-] & Hd & Hb & _ & ->).
              rewrite HDo in Hd. injection Hd as <-.
              rewrite Hrb in Hb. by injection Hb as <-.
        -- split.
           ++ by destruct (_ || _).
           ++ intros (_ & req' & resp' & rb' & [= <-] & Hd & _ & Hs & _).
              rewrite HDo in Hd. injection Hd as <-. lia.
      * split; [done|].
        intros (_ & req' & resp' & rb' & [= <-] & Hd & Hb & _).
        rewrite HDo in Hd. injection Hd as <-. by rewrite Hrb in Hb.
    + split; [done|].
      intros (_ & req' & resp' & rb' & [= <-] & Hd & _). by rewrite HDo in Hd.
  - split; [|by intros (_ & ? & ? & ? & ? & _)].
    intros [= <- ->].
    by destruct (prepareRequest_error _ _ _ _ _ _ _ Hprep) as [?|[?|?]].
Qed.

Lemma apiRequest_answer order c method path body queryParams req resp rb :
  prepareRequest order c method path body queryParams = inl req →
  http_Do (httpClient c) req = Some resp →
  http.RespBody resp = Some rb →
  apiRequest order c method path body queryParams =
  if (400 <=? http.StatusCode resp)%Z
  then (None, Some (ErrAPI (answer_error resp rb)))
  else (Some (success_bytes rb), None).
Proof.
  intros Hp Hd Hb. unfold apiRequest, handleResponse.
  rewrite Hp, Hd, Hb. destruct (400 <=? http.StatusCode resp)%Z; [done|].
  destruct rb as [|b rb]; [done|]. cbn [length Nat.eqb orb success_bytes].
  by destruct (String.eqb_spec (String.string_of_list_byte (b :: rb)) "").
Qed.

(** X7. [apiRequest] succeeds exactly when a request was sent, its answer
    was read, and the status code is below 400 (399 is a success); the
    bytes are the body, and [{}] for an empty body. *)
Theorem apiRequest_success order c method path body queryParams bs :
  apiRequest order c method path body queryParams = (Some bs, None) ↔
  ∃ req resp responseBody,
    prepareRequest order c method path body queryParams = inl req ∧
    http_Do (httpClient c) req = Some resp ∧
    http.RespBody resp = Some responseBody ∧
    (http.StatusCode resp < 400)%Z ∧
    bs = success_bytes responseBody.
Proof.
  split.
  - unfold apiRequest.
    destruct (prepareRequest _ _ _ _ _ _) as [req|err] eqn:Hp; [|done].
    unfold handleResponse.
    destruct (http_Do (httpClient c) req) as [resp|] eqn:Hd; [|done].
    destruct (http.RespBody resp) as [rb|] eqn:Hb; [|done].
    destruct (Z.leb_spec 400 (http.StatusCode resp)) as [Hge|Hlt]; [done|].
    intros Hr. exists req, resp, rb. repeat (split; [done|]).
    destruct rb as [|b rb]; [by injection Hr as <-|].
    cbn [length Nat.eqb orb] in Hr.
    destruct (String.eqb_spec (String.string_of_list_byte (b :: rb)) "");
      [done | by injection Hr as <-].
  - intros (req & resp & rb & Hp & Hd & Hb & Hs & ->).
    rewrite (apiRequest_answer _ _ _ _ _ _ _ _ _ Hp Hd Hb).
    by destruct (Z.leb_spec 400 (http.StatusCode resp)); [lia|].
Qed.

(** X8. The request that [apiRequest] sends: the method given (GET for
    an empty one), the JSON of the body if there is one, and exactly
    three headers, among them the API key of the client, which a server
    reads under [x-api-key]. Its URL is the text of the URL built from
    the base URL, the path and the parameters. *)
Theorem prepareRequest_request order c method path body queryParams req :
  prepareRequest order c method path body queryParams = inl req →
  http.Method req = (if String.eqb method "" then "GET" else method) ∧
  http.ReqBody req = (body ≫= Marshal) ∧
  http.ReqHeader req
  = list_to_map [("Content-Type", ["application/json"]);
                 ("X-Api-Key", [apiKey (client c)]);
                 ("User-Agent", ["vortex-go-sdk/1.0.0"])] ∧
  http.Header_Get (http.ReqHeader req) "x-api-key" = apiKey (client c) ∧
  ∃ u, requestURL order c path queryParams = Some u ∧
       NewRequest_URL (URL_String u) = Some (http.ReqURL req).
Proof.
  unfold prepareRequest.
  destruct (requestURL _ _ _ _) as [u|]; [|done].
  destruct body as [b|]; cbn [option_map mbind option_bind].
  - destruct (Marshal b) as [bodyBytes|]; [|done]. cbn [option_map].
    unfold NewRequest. destruct (negb _); [done|].
    destruct (NewRequest_URL (URL_String u)) as [u'|] eqn:Hu; [|done].
    intros [= <-]. cbn [http.Method http.ReqBody http.ReqHeader http.ReqURL].
    split; [done|]. split; [done|]. split; [|split; [|by exists u]].
    + apply map_eq. intros k. unfold http.Header_Set, http.Header.
      change (http.CanonicalMIMEHeaderKey "Content-Type") with "Content-Type".
      change (http.CanonicalMIMEHeaderKey "x-api-key") with "X-Api-Key".
      change (http.CanonicalMIMEHeaderKey "User-Agent") with "User-Agent".
      cbn [list_to_map foldr uncurry curry]. rewrite !lookup_insert.
      repeat case_decide; subst; done.
    + unfold http.Header_Get, http.Header_Set, http.Header.
      change (http.CanonicalMIMEHeaderKey "x-api-key") with "X-Api-Key".
      change (http.CanonicalMIMEHeaderKey "User-Agent") with "User-Agent".
      rewrite lookup_insert_ne by done. by rewrite lookup_insert_eq.
  - unfold NewRequest. destruct (negb _); [done|].
    destruct (NewRequest_URL (URL_String u)) as [u'|] eqn:Hu; [|done].
    intros [= <-]. cbn [http.Method http.ReqBody http.ReqHeader http.ReqURL].
    split; [done|]. split; [done|]. split; [|split; [|by exists u]].
    + apply map_eq. intros k. unfold http.Header_Set, http.Header.
      change (http.CanonicalMIMEHeaderKey "Content-Type") with "Content-Type".
      change (http.CanonicalMIMEHeaderKey "x-api-key") with "X-Api-Key".
      change (http.CanonicalMIMEHeaderKey "User-Agent") with "User-Agent".
      cbn [list_to_map foldr uncurry curry]. rewrite !lookup_insert.
      repeat case_decide; subst; done.
    + unfold http.Header_Get, http.Header_Set, http.Header.
      change (http.CanonicalMIMEHeaderKey "x-api-key") with "X-Api-Key".
      change (http.CanonicalMIMEHeaderKey "User-Agent") with "User-Agent".
      rewrite lookup_insert_ne by done. by rewrite lookup_insert_eq.
Qed.

(** X9. The order in which the range loop visits the query parameters
    does not show: any two orders give the same URL, the same request
    and the same result. *)
Theorem apiRequest_params_order order1 order2 c method path body queryParams :
  params_order queryParams order1 → params_order queryParams order2 →
  requestURL order1 c path queryParams = requestURL order2 c path queryParams ∧
  apiRequest order1 c method path body queryParams
  = apiRequest order2 c method path body queryParams.
Proof.
  intros H1 H2.
  assert (requestURL order1 c path queryParams
          = requestURL order2 c path queryParams) as Hu.
  { unfold requestURL. destruct (url_Parse _) as [u|]; [|done].
    destruct queryParams as [m|]; [|done].
    by rewrite (range_add_param m order1 order2). }
  split; [exact Hu|]. unfold apiRequest, prepareRequest. by rewrite Hu.
Qed.

Lemma target_params_fold order targetType targetValue :
  order ≡ₚ map_to_list (<["targetValue" := targetValue]>
                          (<["targetType" := targetType]> ∅)
                        : gmap string string) →
  fold_left add_param order (∅ : url.Values)
  = <["targetValue" := [targetValue]]> (<["targetType" := [targetType]]> ∅).
Proof.
  intros Ho. apply map_eq. intros k.
  rewrite fold_add_param_lookup by (rewrite Ho; apply NoDup_fst_map_to_list).
  assert ((list_to_map order : gmap string string)
          = <["targetValue" := targetValue]> (<["targetType" := targetType]> ∅))
    as ->.
  { transitivity (list_to_map (map_to_list
        (<["targetValue" := targetValue]> (<["targetType" := targetType]> ∅)
         : gmap string string)) : gmap string string);
      [|apply list_to_map_to_list].
    apply list_to_map_proper; [|done].
    rewrite Ho. apply NoDup_fst_map_to_list. }
  unfold url.Values. rewrite !lookup_insert, !lookup_empty.
  repeat case_decide; done.
Qed.

Lemma target_params_Encode targetType targetValue :
  url.Encode (<["targetValue" := [targetValue]]>
                (<["targetType" := [targetType]]> ∅))
  = "targetType=" +:+ url.QueryEscape targetType +:+
    "&targetValue=" +:+ url.QueryEscape targetValue.
Proof. vm_compute. reflexivity. Qed.

(** X10. The URL of [GetInvitationsByTarget]: when the base URL has no
    query of its own, the query is [targetType=T&targetValue=V] with
    both values escaped, whatever the order of the range over the
    map. *)
Theorem GetInvitationsByTarget_query order c targetType targetValue u :
  params_order (Some (<["targetValue" := targetValue]>
                        (<["targetType" := targetType]> ∅))) order →
  url_Parse (baseURL (client c) +:+ "/api/v1/invitations") = Some u →
  url_ParseQuery (url.RawQuery u) = ∅ →
  requestURL order c "/api/v1/invitations"
    (Some (<["targetValue" := targetValue]> (<["targetType" := targetType]> ∅)))
  = Some {| url.url_parts := url.url_parts u;
            url.RawQuery :=
              "targetType=" +:+ url.QueryEscape targetType +:+
              "&targetValue=" +:+ url.QueryEscape targetValue |}.
Proof.
  intros Ho Hu Hq. unfold requestURL. rewrite Hu, Hq.
  cbn [params_order] in Ho.
  by rewrite (target_params_fold _ _ _ Ho), target_params_Encode.
Qed.

Lemma Marshal_AcceptInvitationRequest r :
  Marshal (AcceptInvitationRequest_value r) = Some (bytes (accept_text r)).
Proof.
  destruct r as [ids [t v]]. unfold Marshal, bytes.
  unfold AcceptInvitationRequest_value, InvitationTarget_value, accept_text.
  cbn [InvitationIDs Target TargetType TargetValue].
  destruct ids as [ids|];
    cbn [encode mapM fst snd mbind option_bind fmap option_fmap option_map
         mret option_ret map join String.concat];
    unfold member; cbn [fst snd];
    rewrite (appendString_safe "invitationIds"), (appendString_safe "target"),
      (appendString_safe "type"), (appendString_safe "value") by done;
    do 2 f_equal;
    repeat rewrite ?string_app_assoc, ?string_app_cons, ?string_app_nil_l;
    done.
Qed.

Lemma apiRequest_refused order c method path body queryParams resp rb :
  (∀ req, http_Do (httpClient c) req = Some resp) →
  http.RespBody resp = Some rb →
  (400 ≤ http.StatusCode resp)%Z →
  (∀ b, body = Some b → is_Some (Marshal b)) →
  ∃ err, apiRequest order c method path body queryParams = (None, Some err) ∧
         refused (answer_error resp rb) (Some err).
Proof.
  intros Hd Hb Hs Hm.
  destruct (prepareRequest order c method path body queryParams)
    as [req|err] eqn:Hp.
  - rewrite (apiRequest_answer _ _ _ _ _ _ _ _ _ Hp (Hd req) Hb).
    destruct (Z.leb_spec 400 (http.StatusCode resp)); [|lia].
    eexists. split; [done|]. by left.
  - unfold apiRequest. rewrite Hp. exists err. split; [done|].
    revert Hp. unfold prepareRequest.
    destruct (requestURL _ _ _ _) as [u|];
      [|intros [= <-]; right; by left].
    destruct body as [b|].
    + destruct (Hm b eq_refl) as [bs ->]. cbn [option_map].
      destruct (NewRequest _ _ _); [done|].
      intros [= <-]. right; by right.
    + destruct (NewRequest _ _ _); [done|].
      intros [= <-]. right; by right.
Qed.

Lemma decodeInvitation_refused e r err :
  r = (None, Some err) → refused e (Some err) →
  fst (decodeInvitation r) = None ∧ refused e (snd (decodeInvitation r)).
Proof. by intros -> ?. Qed.

Lemma decodeInvitations_refused e r err :
  r = (None, Some err) → refused e (Some err) →
  fst (decodeInvitations r) = None ∧ refused e (snd (decodeInvitations r)).
Proof. by intros -> ?. Qed.

(** X11. A server that answers every request with a status code of 400
    or more: each of the seven calls returns no result, and its error
    is the [*APIError] of that answer, not wrapped, unless the request
    could not be built (URL or method). No call reports a failure to
    marshal, to send, to read or to decode. *)
Theorem refusing_server c resp responseBody :
  (∀ req, http_Do (httpClient c) req = Some resp) →
  http.RespBody resp = Some responseBody →
  (400 ≤ http.StatusCode resp)%Z →
  let e := answer_error resp responseBody in
  (∀ order t v,
     fst (GetInvitationsByTarget order c t v) = None ∧
     refused e (snd (GetInvitationsByTarget order c t v))) ∧
  (∀ id, fst (GetInvitation c id) = None ∧
         refused e (snd (GetInvitation c id))) ∧
  (∀ id, refused e (RevokeInvitation c id)) ∧
  (∀ ids target,
     fst (AcceptInvitations c ids target) = None ∧
     refused e (snd (AcceptInvitations c ids target))) ∧
  (∀ t g, refused e (DeleteInvitationsByGroup c t g)) ∧
  (∀ t g, fst (GetInvitationsByGroup c t g) = None ∧
          refused e (snd (GetInvitationsByGroup c t g))) ∧
  (∀ id, fst (Reinvite c id) = None ∧ refused e (snd (Reinvite c id))).
Proof.
  intros Hd Hb Hs e.
  assert (∀ order method path body queryParams,
            (∀ b, body = Some b → is_Some (Marshal b)) →
            ∃ err, apiRequest order c method path body queryParams
                   = (None, Some err) ∧ refused e (Some err)) as Hr.
  { intros. by eapply apiRequest_refused. }
  assert (∀ b : value, (None : option value) = Some b → is_Some (Marshal b))
    as Hnil by done.
  assert (∀ r, (∃ err, r = (None, Some err) ∧ refused e (Some err)) →
            fst (decodeInvitation r) = None ∧
            refused e (snd (decodeInvitation r))) as Hone.
  { intros r (err & -> & Hf). done. }
  assert (∀ r, (∃ err, r = (None, Some err) ∧ refused e (Some err)) →
            fst (decodeInvitations r) = None ∧
            refused e (snd (decodeInvitations r))) as Hmany.
  { intros r (err & -> & Hf). done. }
  assert (∀ r : option (list byte) * option api_error,
            (∃ err, r = (None, Some err) ∧ refused e (Some err)) →
            refused e (snd r)) as Hnone.
  { intros r (err & -> & Hf). done. }
  split; [intros; apply Hmany, Hr, Hnil|].
  split; [intros; apply Hone, Hr, Hnil|].
  split; [intros; apply Hnone, Hr, Hnil|].
  split.
  { intros. apply Hone, Hr. intros b [= <-].
    rewrite Marshal_AcceptInvitationRequest. by eexists. }
  split; [intros; apply Hnone, Hr, Hnil|].
  split; [intros; apply Hmany, Hr, Hnil|].
  intros; apply Hone, Hr, Hnil.
Qed.

Lemma apiRequest_no_error order c method path body queryParams :
  snd (apiRequest order c method path body queryParams) = None ↔
  ∃ req resp responseBody,
    prepareRequest order c method path body queryParams = inl req ∧
    http_Do (httpClient c) req = Some resp ∧
    http.RespBody resp = Some responseBody ∧
    (http.StatusCode resp < 400)%Z.
Proof.
  split.
  - destruct (apiRequest order c method path body queryParams)
      as [bs err] eqn:Ha. cbn [snd]. intros ->.
    revert Ha. unfold apiRequest.
    destruct (prepareRequest _ _ _ _ _ _) as [req|] eqn:Hp; [|done].
    unfold handleResponse.
    destruct (http_Do _ _) as [resp|] eqn:Hd; [|done].
    destruct (http.RespBody resp) as [rb|] eqn:Hb; [|done].
    destruct (Z.leb_spec 400 (http.StatusCode resp)); [done|].
    intros _. by exists req, resp, rb.
  - intros (req & resp & rb & Hp & Hd & Hb & Hs).
    rewrite (apiRequest_answer _ _ _ _ _ _ _ _ _ Hp Hd Hb).
    by destruct (Z.leb_spec 400 (http.StatusCode resp)); [lia|].
Qed.

(** X12. [RevokeInvitation] and [DeleteInvitationsByGroup] return no
    error exactly when their DELETE request was sent and answered with
    a readable body and a status code below 400; what the body says
    plays no part. *)
Theorem delete_calls_ok c :
  (∀ invitationID,
     RevokeInvitation c invitationID = None ↔
     ∃ req resp responseBody,
       prepareRequest [] c "DELETE" ("/api/v1/invitations/" +:+ invitationID)
         None None = inl req ∧
       http_Do (httpClient c) req = Some resp ∧
       http.RespBody resp = Some responseBody ∧
       (http.StatusCode resp < 400)%Z) ∧
  (∀ groupType groupID,
     DeleteInvitationsByGroup c groupType groupID = None ↔
     ∃ req resp responseBody,
       prepareRequest [] c "DELETE"
         ("/api/v1/invitations/by-group/" +:+ groupType +:+ "/" +:+ groupID)
         None None = inl req ∧
       http_Do (httpClient c) req = Some resp ∧
       http.RespBody resp = Some responseBody ∧
       (http.StatusCode resp < 400)%Z).
Proof. split; intros; apply apiRequest_no_error. Qed.

(** X13. The body of [AcceptInvitations] always marshals, to an object
    with the members [invitationIds] and [target] in this order; a
    [nil] list of identifiers is written [null], an empty one [[]]. The
    call therefore never fails with the marshalling error. *)
Theorem AcceptInvitations_body c invitationIDs target :
  Marshal (AcceptInvitationRequest_value
             {| InvitationIDs := invitationIDs; Target := target |})
  = Some (bytes (accept_text
                   {| InvitationIDs := invitationIDs; Target := target |})) ∧
  snd (AcceptInvitations c invitationIDs target) ≠ Some ErrMarshalRequestBody.
Proof.
  split; [apply Marshal_AcceptInvitationRequest|].
  unfold AcceptInvitations, apiRequest, prepareRequest.
  destruct (requestURL _ _ _ _) as [u|]; [|done].
  rewrite Marshal_AcceptInvitationRequest. cbn [option_map].
  destruct (NewRequest _ _ _) as [req|]; [|done].
  cbn zeta. unfold handleResponse, decodeInvitation.
  destruct (http_Do _ _) as [resp|]; [|done].
  destruct (http.RespBody resp) as [rb|]; [|done].
  destruct (400 <=? http.StatusCode resp)%Z; [done|].
  destruct (_ || _); cbn [default];
    by destruct (Unmarshal_InvitationResult _).
Qed.

Lemma decodeInvitation_result (r : option (list byte) * option api_error) :
  snd (decodeInvitation r) = None ↔ is_Some (fst (decodeInvitation r)).
Proof.
  destruct r as [bs [err|]]; cbn [decodeInvitation].
  - split; [done | by intros [? ?]].
  - destruct (Unmarshal_InvitationResult (default [] bs)); cbn [fst snd].
    + split; [by eexists | done].
    + split; [done | by intros [? ?]].
Qed.

(** X14. The three calls that return one invitation return either an
    invitation or an error, never both and never neither. *)
Theorem invitation_or_error c :
  (∀ id, snd (GetInvitation c id) = None ↔ is_Some (fst (GetInvitation c id))) ∧
  (∀ ids target,
     snd (AcceptInvitations c ids target) = None ↔
     is_Some (fst (AcceptInvitations c ids target))) ∧
  (∀ id, snd (Reinvite c id) = None ↔ is_Some (fst (Reinvite c id))).
Proof.
  split; [|split]; intros; apply decodeInvitation_result.
Qed.

(** X15. An answer below 400 with an empty body is decoded as the
    empty object: [GetInvitation] hands [{}] to [json.Unmarshal]. *)
Theorem GetInvitation_empty_body c invitationID req resp :
  prepareRequest [] c "GET" ("/api/v1/invitations/" +:+ invitationID)
    None None = inl req →
  http_Do (httpClient c) req = Some resp →
  http.RespBody resp = Some [] →
  (http.StatusCode resp < 400)%Z →
  GetInvitation c invitationID =
  match Unmarshal_InvitationResult (bytes "{}") with
  | None => (None, Some ErrUnmarshalResponse)
  | Some invitation => (Some invitation, None)
  end.
Proof.
  intros Hp Hd Hb Hs. unfold GetInvitation. cbn zeta.
  rewrite (apiRequest_answer _ _ _ _ _ _ _ _ _ Hp Hd Hb).
  by destruct (Z.leb_spec 400 (http.StatusCode resp)); [lia|].
Qed.

End api_facts.

(** ** The query *)

(** X16. [url.QueryEscape] writes none of the characters that structure
    a URL: a target type or value cannot add a parameter, start a
    fragment or leave the query. *)
Theorem QueryEscape_no_separator s :
  all_chars (λ c, negb (query_separator c)) (url.QueryEscape s) = true.
Proof.
  apply (all_chars_impl query_char); [|apply QueryEscape_alphabet].
  intros c. destruct c as [[] [] [] [] [] [] [] []]; vm_compute; done.
Qed.

(** ** The calls on the test double *)

Lemma prepareRequest_request_witness :
  @prepareRequest mock_lib [] (mock_client echo_server) ""
    "/api/v1/invitations/abc" None None
  = inl (test_request "GET" "/api/v1/invitations/abc") ∧
  http.Method (test_request "GET" "/api/v1/invitations/abc") = "GET" ∧
  http.Header_Get (http.ReqHeader (test_request "GET" "/api/v1/invitations/abc"))
    "x-api-key" = "test-api-key".
Proof.
  assert (@prepareRequest mock_lib [] (mock_client echo_server) ""
            "/api/v1/invitations/abc" None None
          = inl (test_request "GET" "/api/v1/invitations/abc")) as H
    by (vm_compute; reflexivity).
  split; [exact H|].
  pose proof (@prepareRequest_request mock_lib [] (mock_client echo_server) ""
                "/api/v1/invitations/abc" None None _ H)
    as (Hm & _ & _ & Hk & _).
  split; [exact Hm | exact Hk].
Defined.

Lemma apiRequest_params_order_witness :
  params_order (Some test_params) (map_to_list test_params) ∧
  params_order (Some test_params) (reverse (map_to_list test_params)) ∧
  @apiRequest mock_lib (map_to_list test_params) (mock_client echo_server)
    "GET" "/api/v1/invitations" None (Some test_params)
  = @apiRequest mock_lib (reverse (map_to_list test_params))
      (mock_client echo_server) "GET" "/api/v1/invitations" None
      (Some test_params).
Proof.
  assert (params_order (Some test_params) (map_to_list test_params)) as H1
    by apply Permutation_refl.
  assert (params_order (Some test_params) (reverse (map_to_list test_params)))
    as H2 by apply reverse_Permutation.
  split; [exact H1|]. split; [exact H2|].
  exact (proj2 (@apiRequest_params_order mock_lib _ _ (mock_client echo_server)
                  "GET" "/api/v1/invitations" None (Some test_params) H1 H2)).
Defined.

Lemma GetInvitationsByTarget_query_witness :
  params_order (Some test_params) (reverse (map_to_list test_params)) ∧
  @requestURL mock_lib (reverse (map_to_list test_params))
    (mock_client echo_server) "/api/v1/invitations" (Some test_params)
  = Some {| url.url_parts := "http://127.0.0.1/api/v1/invitations";
            url.RawQuery :=
              "targetType=" +:+ url.QueryEscape "email" +:+
              "&targetValue=" +:+ url.QueryEscape "test@example.com" |} ∧
  "targetType=" +:+ url.QueryEscape "email" +:+
  "&targetValue=" +:+ url.QueryEscape "test@example.com"
  = "targetType=email&targetValue=test%40example.com".
Proof.
  assert (params_order (Some test_params) (reverse (map_to_list test_params)))
    as H1 by apply reverse_Permutation.
  split; [exact H1|]. split; [|reflexivity].
  exact (@GetInvitationsByTarget_query mock_lib _ (mock_client echo_server)
           "email" "test@example.com"
           (mock_URL "http://127.0.0.1/api/v1/invitations")
           H1 eq_refl eq_refl).
Defined.

Lemma refusing_server_witness :
  (∀ req, @http_Do mock_lib
            (@httpClient mock_lib (mock_client not_found_server)) req
          = Some not_found) ∧
  http.RespBody not_found = Some (bytes "Not found") ∧
  (400 ≤ http.StatusCode not_found)%Z ∧
  refused (answer_error not_found (bytes "Not found"))
    (@RevokeInvitation mock_lib (mock_client not_found_server)
       "test-invitation-1") ∧
  fst (@AcceptInvitations mock_lib (mock_client not_found_server)
         (Some ["inv-1"; "inv-2"])
         {| TargetType := "email"; TargetValue := "test@example.com" |})
  = None.
Proof.
  assert (∀ req, @http_Do mock_lib
            (@httpClient mock_lib (mock_client not_found_server)) req
          = Some not_found) as H1 by (intros req; reflexivity).
  assert (http.RespBody not_found = Some (bytes "Not found")) as H2
    by reflexivity.
  assert (400 ≤ http.StatusCode not_found)%Z as H3 by (vm_compute; discriminate).
  split; [exact H1|]. split; [exact H2|]. split; [exact H3|].
  pose proof (@refusing_server mock_lib (mock_client not_found_server)
                not_found (bytes "Not found") H1 H2 H3)
    as (_ & _ & Hrevoke & Haccept & _).
  split; [exact (Hrevoke "test-invitation-1")|].
  exact (proj1 (Haccept (Some ["inv-1"; "inv-2"])
                  {| TargetType := "email";
                     TargetValue := "test@example.com" |})).
Defined.

Lemma GetInvitation_empty_body_witness :
  @prepareRequest mock_lib [] (mock_client no_content_server) "GET"
    ("/api/v1/invitations/" +:+ "test-invitation-1") None None
  = inl (test_request "GET" "/api/v1/invitations/test-invitation-1") ∧
  http.RespBody no_content = Some [] ∧
  (http.StatusCode no_content < 400)%Z ∧
  @GetInvitation mock_lib (mock_client no_content_server) "test-invitation-1"
  = (Some (bytes "{}"), None).
Proof.
  assert (@prepareRequest mock_lib [] (mock_client no_content_server) "GET"
            ("/api/v1/invitations/" +:+ "test-invitation-1") None None
          = inl (test_request "GET" "/api/v1/invitations/test-invitation-1"))
    as H1 by (vm_compute; reflexivity).
  assert (http.RespBody no_content = Some []) as H2 by reflexivity.
  assert (http.StatusCode no_content < 400)%Z as H3 by reflexivity.
  split; [exact H1|]. split; [exact H2|]. split; [exact H3|].
  exact (@GetInvitation_empty_body mock_lib (mock_client no_content_server)
           "test-invitation-1" _ no_content H1 eq_refl H2 H3).
Defined.
